(** * stack_overflow_data.py: the duplicate-question dataset pipeline

    A shallow embedding of
    [azure_utils/machine_learning/datasets/stack_overflow_data.py]
    and the properties of its cleaning, splitting, pairing and caching
    stages.

    Representation.
    - A pandas DataFrame is the list of its rows, in row order; a Series is
      the list of its values; a boolean mask is a [list bool].
    - The frames read by [download_datasets] carry [Id] as their index
      (the source reads [questions.iloc[0, 1]] as the raw text, so the
      first data column is [AnswerId]). A row record keeps that label in
      its field [Id]; [reset_index] turns the label into the column [Id].
    - Identifiers are integers ([Z]). A Python [str] is the list of its
      code points ([str]), so that [len] is the length of the list; file
      contents, paths and URLs are byte [string]s.
    - The helpers imported from [azure_utils.utilities] ([clean_text],
      [read_csv_gz], [round_sample_strat], [random_merge]), the constant
      [azure_utils.directory], Python's [str.lower] (whose table of cased
      characters is Unicode's) and pandas' [read_csv]/[to_csv] are not
      part of the module: they are parameters of the development.
    - Exceptions are values of [exn]; a computation that can raise returns
      a [result]. The diagnostic prints leave no trace in the model, but an
      exception raised while evaluating their arguments does. *)

From Stdlib Require Import ZArith QArith String Ascii List Lia.
From stdpp Require Import base list sorting gmap strings.

Local Open Scope Z_scope.

(** ** Exceptions and results *)

Inductive exn :=
| IndexError
| KeyError
| AssertionError
| ZeroDivisionError
| OSError.

Inductive result (A : Type) :=
| Ok (a : A)
| Raise (e : exn).
Arguments Ok {A} a.
Arguments Raise {A} e.

(** Sequencing: the first exception raised ends the computation. *)
Global Instance result_ret : MRet result := λ A a, Ok a.
Global Instance result_bind : MBind result := λ A B k m,
  match m with
  | Ok a => k a
  | Raise e => Raise e
  end.

(** [assert c] *)
Definition assert (c : bool) : result unit :=
  if c then Ok tt else Raise AssertionError.

(** ** Text *)

(** A Python [str]: its code points, in order. [len(s)] is [length s]. *)
Definition str : Type := list N.

(** The [str] of an ASCII literal. *)
Definition py (s : string) : str := N_of_ascii <$> list_ascii_of_string s.
Coercion py : string >-> str.
Bind Scope string_scope with str.

(** ** Rows *)

(** A row of [orig-q.tsv.gz] or [dup-q.tsv.gz], as read with
    [names=('Id', 'AnswerId', 'Text0', 'CreationDate')]. *)
Record RawRow := mkRawRow {
  raw_Id : Z;
  raw_AnswerId : Z;
  raw_Text0 : str;
  raw_CreationDate : str
}.

(** A row of [ans.tsv.gz], read with [names=('Id', 'Text0')]. *)
Record RawAnswer := mkRawAnswer {
  rawans_Id : Z;
  rawans_Text0 : str
}.

(** A question or duplicate row once the column [Text] exists. *)
Record Row := mkRow {
  Id : Z;
  AnswerId : Z;
  Text0 : str;
  CreationDate : str;
  Text : str
}.

(** An answer row once the column [Text] exists. *)
Record Answer := mkAnswer {
  ans_Id : Z;
  ans_Text0 : str;
  ans_Text : str
}.

Global Instance Row_eq_dec : EqDecision Row.
Proof. solve_decision. Defined.
Global Instance Answer_eq_dec : EqDecision Answer.
Proof. solve_decision. Defined.

(** ** Series and masks *)

(** [s.str.len()]: the number of code points of each text. *)
Definition str_len (s : list str) : list Z :=
  (λ t, Z.of_nat (length t)) <$> s.

(** [s > k] and [s >= k] *)
Definition series_gt (s : list Z) (k : Z) : list bool :=
  (λ x, bool_decide (k < x)) <$> s.
Definition series_ge (s : list Z) (k : Z) : list bool :=
  (λ x, bool_decide (k ≤ x)) <$> s.

(** [s.isin(values)] *)
Definition isin (s values : list Z) : list bool :=
  (λ x, bool_decide (x ∈ values)) <$> s.

(** [~m] and [m1 & m2] *)
Definition mask_not (m : list bool) : list bool := negb <$> m.
Definition mask_and (m1 m2 : list bool) : list bool := zip_with andb m1 m2.

(** [m.all()] *)
Definition all (m : list bool) : bool := forallb id m.

(** [index.duplicated(keep='first')]: a label is marked when it occurred
    at an earlier position. *)
Fixpoint duplicated_from (seen : list Z) (idx : list Z) : list bool :=
  match idx with
  | [] => []
  | i :: idx' => bool_decide (i ∈ seen) :: duplicated_from (i :: seen) idx'
  end.
Definition duplicated (idx : list Z) : list bool := duplicated_from [] idx.

(** [df[mask]]: the rows whose mask entry is [True]. (pandas refuses a mask
    of another length; every mask below is computed from the frame it
    selects from.) *)
Fixpoint loc {A} (df : list A) (mask : list bool) : list A :=
  match df, mask with
  | r :: df', b :: mask' => if b then r :: loc df' mask' else loc df' mask'
  | _, _ => []
  end.

(** [s.unique()]: the distinct values in order of first appearance. *)
Fixpoint unique_from {A} `{EqDecision A} (seen : list A) (s : list A) : list A :=
  match s with
  | [] => []
  | x :: s' =>
      if decide (x ∈ seen) then unique_from seen s'
      else x :: unique_from (x :: seen) s'
  end.
Definition unique {A} `{EqDecision A} (s : list A) : list A := unique_from [] s.

(** The number of rows of a series holding [k]. *)
Definition count_of (k : Z) (s : list Z) : Z :=
  Z.of_nat (length (filter (λ x, x = k) s)).

(** [df.groupby(col)[col].count()]: one entry per distinct key, keys in
    ascending order, with the number of rows of the group. *)
Definition groupby_count (s : list Z) : list (Z * Z) :=
  (λ k, (k, count_of k s)) <$> merge_sort Z.le (unique s).

(** [counts.index[counts >= k]] *)
Definition index_where_ge (counts : list (Z * Z)) (k : Z) : list Z :=
  fst <$> loc counts (series_ge (snd <$> counts) k).

(** [df.index] and the columns read below. *)
Definition index (df : list Row) : list Z := Id <$> df.
Definition ans_index (df : list Answer) : list Z := ans_Id <$> df.

(** [df.reset_index(inplace=True)]: the index label becomes the column
    [Id]; the record already holds it. *)
Definition reset_index {A} (df : list A) : list A := df.

(** [df.iloc[0, j]] for a column [j] of the frame: raises on an empty
    frame. *)
Definition iloc0 {A B} (df : list A) (col : A → B) : result B :=
  match df with
  | [] => Raise IndexError
  | r :: _ => Ok (col r)
  end.

(** [dupes.AnswerId.value_counts().max() / dupes.shape[0]], the share of
    the largest class that [clean_data] prints: on an empty frame [max()]
    is the float [nan], and dividing it by the integer [0] raises. *)
Definition largest_class (dupes : list Row) : result unit :=
  match dupes with
  | [] => Raise ZeroDivisionError
  | _ :: _ => Ok tt
  end.

(** ** clean_data *)

Section Clean.

(** [azure_utils.utilities.clean_text] *)
Variable clean_text : str → str.

(** Python's [str.lower], applied to each text by [.str.lower()] *)
Variable lower : str → str.

(** [df["Text"] = df.Text0.apply(clean_text).str.lower()] *)
Definition set_Text (r : RawRow) : Row :=
  {| Id := raw_Id r; AnswerId := raw_AnswerId r; Text0 := raw_Text0 r;
     CreationDate := raw_CreationDate r;
     Text := lower (clean_text (raw_Text0 r)) |}.

Definition set_ans_Text (r : RawAnswer) : Answer :=
  {| ans_Id := rawans_Id r; ans_Text0 := rawans_Text0 r;
     ans_Text := lower (clean_text (rawans_Text0 r)) |}.

(** [verify_data_integrity] *)
Definition verify_data_integrity
    (answers : list Answer) (dupes questions : list Row) : result unit :=
  assert (all (isin (AnswerId <$> questions) (ans_index answers))) ;;
  assert (all (isin (ans_index answers) (AnswerId <$> questions))) ;;
  assert (all (isin (AnswerId <$> questions) (AnswerId <$> dupes))) ;;
  assert (all (isin (AnswerId <$> dupes) (AnswerId <$> questions))).

(** Lines 80-95 of [clean_data]: the frames as they stand when
    [verify_data_integrity] is called, in the order
    [(answers, dupes, questions)]. *)
Definition clean_data_closure
    (answers : list RawAnswer) (dupes questions : list RawRow)
    (show_output : bool) : result (list Answer * list Row * list Row) :=
  let questions := set_Text <$> questions in
  let dupes := set_Text <$> dupes in
  let answers := set_ans_Text <$> answers in
  let questions := loc questions (series_gt (str_len (Text <$> questions)) 0) in
  let answers := loc answers (series_gt (str_len (ans_Text <$> answers)) 0) in
  let dupes := loc dupes (series_gt (str_len (Text <$> dupes)) 0) in
  (if show_output
   then iloc0 questions Text0 ;; iloc0 questions Text ;; Ok tt
   else Ok tt) ;;
  (* First, remove dupes that are questions, then remove duplicated
     questions and dupes. *)
  let dupes := loc dupes (mask_not (isin (index dupes) (index questions))) in
  let questions := loc questions (mask_not (duplicated (index questions))) in
  let dupes := loc dupes (mask_not (duplicated (index dupes))) in
  (* Keep only questions with answers and dupes, answers to questions,
     and dupes of questions. *)
  let questions :=
    loc questions
      (mask_and (isin (AnswerId <$> questions) (ans_index answers))
                (isin (AnswerId <$> questions) (AnswerId <$> dupes))) in
  let answers := loc answers (isin (ans_index answers) (AnswerId <$> questions)) in
  let dupes := loc dupes (isin (AnswerId <$> dupes) (AnswerId <$> questions)) in
  Ok (answers, dupes, questions).

(** Lines 97-138 of [clean_data], from the frames that passed
    [verify_data_integrity]. ([answers] is not read after line 104, so its
    [reset_index] is left out.) *)
Definition clean_data_restrict
    (dupes questions : list Row) (min_dupes min_text : Z) (show_output : bool)
    : result (list Row * string * list Row) :=
  (* Report on the data. *)
  (if show_output then largest_class dupes else Ok tt) ;;
  (* Reset each dataframe's index. *)
  let questions := reset_index questions in
  let dupes := reset_index dupes in
  (* Apply the minimum text length to questions and dupes. *)
  let questions := loc questions (series_ge (str_len (Text <$> questions)) min_text) in
  let dupes := loc dupes (series_ge (str_len (Text <$> dupes)) min_text) in
  (* Keep only questions with dupes, and dupes of questions. *)
  let label_column := "AnswerId"%string in
  let questions := loc questions (isin (AnswerId <$> questions) (AnswerId <$> dupes)) in
  let dupes := loc dupes (isin (AnswerId <$> dupes) (AnswerId <$> questions)) in
  (* Restrict the questions to those with a minimum number of dupes. *)
  let answerid_count := groupby_count (AnswerId <$> dupes) in
  let answerid_min := index_where_ge answerid_count min_dupes in
  let questions := loc questions (isin (AnswerId <$> questions) answerid_min) in
  let dupes := loc dupes (isin (AnswerId <$> dupes) answerid_min) in
  (* Verify data integrity. *)
  assert (all (isin (AnswerId <$> questions) (AnswerId <$> dupes))) ;;
  assert (all (isin (AnswerId <$> dupes) (AnswerId <$> questions))) ;;
  (* Report on the data. *)
  (if show_output then largest_class dupes else Ok tt) ;;
  Ok (dupes, label_column, questions).

(** [clean_data]; the result is [(dupes, label_column, questions)]. *)
Definition clean_data
    (answers : list RawAnswer) (dupes : list RawRow) (min_dupes min_text : Z)
    (questions : list RawRow) (show_output : bool)
    : result (list Row * string * list Row) :=
  '(answers, dupes, questions) ← clean_data_closure answers dupes questions show_output;
  verify_data_integrity answers dupes questions ;;
  clean_data_restrict dupes questions min_dupes min_text show_output.

End Clean.

(** ** Columns by name *)

Inductive value :=
| VInt (z : Z)
| VStr (s : str).

Global Instance value_eq_dec : EqDecision value.
Proof. solve_decision. Defined.

(** The columns of a questions or dupes frame after [reset_index]. *)
Definition column_of (name : string) : option (Row → value) :=
  if decide (name = "Id"%string) then Some (λ r, VInt (Id r))
  else if decide (name = "AnswerId"%string) then Some (λ r, VInt (AnswerId r))
  else if decide (name = "Text0"%string) then Some (λ r, VStr (Text0 r))
  else if decide (name = "CreationDate"%string) then Some (λ r, VStr (CreationDate r))
  else if decide (name = "Text"%string) then Some (λ r, VStr (Text r))
  else None.

(** [df[name]]: raises [KeyError] when the frame has no such column. *)
Definition getitem (df : list Row) (name : string) : result (list value) :=
  match column_of name with
  | Some col => Ok (col <$> df)
  | None => Raise KeyError
  end.

(** ** The pairing tables *)

(** A row of the frame [random_merge] returns, with the columns
    [split_duplicates] reads from it. *)
Record Merged := mkMerged {
  m_Id_x : Z;
  m_AnswerId_x : Z;
  m_Text_x : str;
  m_Id_y : Z;
  m_Text_y : str;
  m_AnswerId_y : Z;
  m_n : Z
}.

(** A row of [balanced_pairs_train] and [balanced_pairs_test]: the columns
    of [balanced_pairs_columns]. *)
Record Pair := mkPair {
  Id_x : Z;
  AnswerId_x : Z;
  Text_x : str;
  Id_y : Z;
  Text_y : str;
  AnswerId_y : Z;
  Label : Z;
  n : Z
}.

(** [pairs["Label"] = (pairs.AnswerId_x == pairs.AnswerId_y).astype(int)]
    followed by [pairs[balanced_pairs_columns]], row by row. *)
Definition set_Label (m : Merged) : Pair :=
  {| Id_x := m_Id_x m; AnswerId_x := m_AnswerId_x m; Text_x := m_Text_x m;
     Id_y := m_Id_y m; Text_y := m_Text_y m; AnswerId_y := m_AnswerId_y m;
     Label := Z.b2z (bool_decide (m_AnswerId_x m = m_AnswerId_y m));
     n := m_n m |}.

(** The order of [sort_values(by=['Id_x', 'Label'], ascending=[True, False])]:
    [Id_x] ascending, then [Label] descending. *)
Definition pair_le (p q : Pair) : Prop :=
  Id_x p < Id_x q ∨ (Id_x p = Id_x q ∧ Label q ≤ Label p).

Global Instance pair_le_dec : RelDecision pair_le.
Proof. intros p q. unfold pair_le. apply _. Defined.

(** A sort on several keys is stable in pandas: rows that agree on [Id_x]
    and [Label] keep the order they had. [insert_sorted] puts a row before
    the first row that does not come strictly before it, and [sort_values]
    inserts the rows from the last to the first, so that an earlier row ends
    before the later rows with the same keys. *)
Fixpoint insert_sorted (p : Pair) (pairs : list Pair) : list Pair :=
  match pairs with
  | [] => [p]
  | q :: pairs' =>
      if decide (pair_le p q) then p :: q :: pairs' else q :: insert_sorted p pairs'
  end.

Definition sort_values (pairs : list Pair) : list Pair := foldr insert_sorted [] pairs.

(** ** The world: files, random generator, input and output performed *)

Inductive Event :=
| Fetch (url : string)
| ReadFile (path : string)
| WriteFile (path : string)
| MakeDirs (path : string).

Record World := mkWorld {
  files : gmap string string;
  rng : N;
  trace : list Event
}.

(** A computation that reads and changes the world and may raise. *)
Definition M (A : Type) : Type := World → result A * World.

Global Instance M_ret : MRet M := λ A a w, (Ok a, w).
Global Instance M_bind : MBind M := λ A B k m w,
  match m w with
  | (Ok a, w') => k a w'
  | (Raise e, w') => (Raise e, w')
  end.

Definition lift {A} (r : result A) : M A := λ w, (r, w).

Definition log (e : Event) : M unit :=
  λ w, (Ok tt, {| files := files w; rng := rng w; trace := trace w ++ [e] |}).

(** A helper that draws from the random generator. *)
Definition draw {A} (f : N → A * N) : M A :=
  λ w, let '(a, g) := f (rng w) in
       (Ok a, {| files := files w; rng := g; trace := trace w |}).

(** [os.path.isfile] *)
Definition isfile (path : string) : M bool :=
  λ w, (Ok (bool_decide (is_Some (files w !! path))), w).

(** Writing [content] to [path]. *)
Definition put_file (path content : string) : M unit :=
  λ w, (Ok tt, {| files := <[path := content]> (files w); rng := rng w;
                  trace := trace w |}).

Definition write_file (path content : string) : M unit :=
  log (WriteFile path) ;;
  put_file path content.

(** Reading [path]. *)
Definition get_file (path : string) : M string :=
  λ w, match files w !! path with
       | Some content => (Ok content, w)
       | None => (Raise OSError, w)
       end.

Definition read_file (path : string) : M string :=
  log (ReadFile path) ;;
  get_file path.

(** [os.path.join a b] (posix). *)
Definition ends_with_slash (a : string) : bool :=
  match String.get (String.length a - 1) a with
  | Some c => bool_decide (c = "/"%char)
  | None => false
  end.

Definition path_join (a b : string) : string :=
  if String.prefix "/" b then b
  else if bool_decide (a = ""%string) || ends_with_slash a then a +:+ b
  else a +:+ "/" +:+ b.

(** ** The pipeline *)

Section Pipeline.

(** [azure_utils.directory] *)
Variable directory : string.

(** [azure_utils.utilities]: the text cleaner; the reader of a remote
    gzip file, for the two column layouts [download_datasets] names; the
    stratified sampler and the pairing function, which draw from the
    random generator. *)
Variable clean_text : str → str.
Variable lower : str → str.
Variable read_csv_gz : string → result (list RawRow).
Variable read_csv_gz_answers : string → result (list RawAnswer).
Variable round_sample_strat : list Row → list value → Q → N → list Row * N.
Variable random_merge : list Row → list Row → Z → N → list Merged * N.

(** pandas: [read_csv(text, sep="\t")] and
    [to_csv(sep="\t", header=True, index=False)] on the content of a
    file. *)
Variable read_csv : string → result (list Row).
Variable to_csv : list Row → string.
Variable pairs_to_csv : list Pair → string.

(** The train rows: [dupes[~dupes.Id.isin(dupes_test.Id)]]. *)
Definition train_rows (dupes dupes_test : list Row) : list Row :=
  loc dupes (mask_not (isin (Id <$> dupes) (Id <$> dupes_test))).

(** [split_duplicates]; the result is
    [(balanced_pairs_test, balanced_pairs_train, dupes_test)]. *)
Definition split_duplicates
    (dupes : list Row) (label_column : string) (match_ : Z)
    (questions : list Row) (show_output : bool) (test_size : Q)
    : M (list Pair * list Pair * list Row) :=
  labels ← lift (getitem dupes label_column);
  dupes_test ← draw (round_sample_strat dupes labels test_size);
  let dupes_train := train_rows dupes dupes_test in
  test_labels ← lift (getitem dupes_test label_column);
  all_labels ← lift (getitem dupes label_column);
  lift (assert (bool_decide (length (unique test_labels) = length (unique all_labels)))) ;;
  (* Use AnswerId to pair each training dupe with its matching question
     and also with N-1 questions not its match. *)
  balanced_pairs_train ← draw (random_merge dupes_train questions match_);
  (* Label records by matching AnswerIds; keep only the relevant data. *)
  let balanced_pairs_train := set_Label <$> balanced_pairs_train in
  (* Sort the data by dupe ID and Label. *)
  let balanced_pairs_train := sort_values balanced_pairs_train in
  (* Use AnswerId to pair each testing dupe with all questions. *)
  balanced_pairs_test ←
    draw (random_merge dupes_test questions (Z.of_nat (length questions)));
  let balanced_pairs_test := set_Label <$> balanced_pairs_test in
  let balanced_pairs_test := sort_values balanced_pairs_test in
  mret (balanced_pairs_test, balanced_pairs_train, dupes_test).

(** [save_data] *)
Definition save_data
    (balanced_pairs_test balanced_pairs_train : list Pair)
    (dupes_test : list Row) (dupes_test_path outputs_path : string)
    (questions : list Row) (questions_path : string) (show_output : bool)
    : M unit :=
  log (MakeDirs outputs_path) ;;
  let balanced_pairs_train_path := path_join outputs_path "balanced_pairs_train.tsv" in
  write_file balanced_pairs_train_path (pairs_to_csv balanced_pairs_train) ;;
  let balanced_pairs_test_path := path_join outputs_path "balanced_pairs_test.tsv" in
  write_file balanced_pairs_test_path (pairs_to_csv balanced_pairs_test) ;;
  (* Save original questions to be used for scoring later. *)
  write_file questions_path (to_csv questions) ;;
  (* Save the test duplicate questions to be used with the scoring function. *)
  write_file dupes_test_path (to_csv dupes_test).

(** [answers.at[label, 'Text0']]: raises [KeyError] when no row carries
    the label. *)
Definition at_Text0 (answers : list RawAnswer) (label : Z) : result unit :=
  if bool_decide (label ∈ rawans_Id <$> answers) then Ok tt else Raise KeyError.

(** [download_datasets]; the result is [(answers, dupes, questions)]. *)
Definition download_datasets (show_output : bool)
    : M (list RawAnswer * list RawRow * list RawRow) :=
  let data_url := "https://bostondata.blob.core.windows.net/stackoverflow/"%string in
  let questions_url := data_url +:+ "orig-q.tsv.gz" in
  let dupes_url := data_url +:+ "dup-q.tsv.gz" in
  let answers_url := data_url +:+ "ans.tsv.gz" in
  log (Fetch questions_url) ;;
  questions ← lift (read_csv_gz questions_url);
  log (Fetch dupes_url) ;;
  dupes ← lift (read_csv_gz dupes_url);
  log (Fetch answers_url) ;;
  answers ← lift (read_csv_gz_answers answers_url);
  (if show_output return M unit
   then lift (iloc0 questions raw_Text0 ;;
              iloc0 questions raw_AnswerId ;;
              label ← iloc0 questions raw_AnswerId;
              at_Text0 answers label)
   else mret tt) ;;
  mret (answers, dupes, questions).

(** [pd.read_csv(path, sep="\t")] *)
Definition pd_read_csv (path : string) : M (list Row) :=
  content ← read_file path;
  lift (read_csv content).

(** [create_stack_overflow_data]; the result is [(questions, dupes_test)]. *)
Definition create_stack_overflow_data
    (test_size : Q) (min_text min_dupes match_ : Z) (show_output : bool)
    : M (list Row * list Row) :=
  let outputs_path := directory +:+ "/data_folder" in
  let dupes_test_path := path_join outputs_path "dupes_test.tsv" in
  let questions_path := path_join outputs_path "questions.tsv" in
  has_dupes_test ← isfile dupes_test_path;
  cached ← match has_dupes_test return M bool with
            | true => isfile questions_path
            | false => mret false
            end;
  match cached return M (list Row * list Row) with
  | true =>
    questions ← pd_read_csv questions_path;
    dupes_test ← pd_read_csv dupes_test_path;
    mret (questions, dupes_test)
  | false =>
    '(answers, dupes, questions) ← download_datasets show_output;
    (* Clean up all text, and keep only data with some clean text. *)
    '(dupes, label_column, questions) ←
      lift (clean_data clean_text lower answers dupes min_dupes min_text questions show_output);
    (* Split dupes into train and test ensuring at least one of each
       label class is in test. *)
    '(balanced_pairs_test, balanced_pairs_train, dupes_test) ←
      split_duplicates dupes label_column match_ questions show_output test_size;
    save_data balanced_pairs_test balanced_pairs_train dupes_test dupes_test_path
              outputs_path questions questions_path show_output ;;
    mret (questions, dupes_test)
  end.

End Pipeline.

(** ** Notions used by the statements below *)

(** [r] stands in [df] at a position before which no row has [r]'s key:
    it is the first row of [df] with that key. *)
Definition first_with {A} (key : A → Z) (r : A) (df : list A) : Prop :=
  ∃ l1 l2, df = l1 ++ r :: l2 ∧ key r ∉ key <$> l1.

(** The rows of a raw frame whose cleaned text is not empty, in their
    order, with the column [Text]. *)
Definition with_text (clean_text lower : str → str) (raw : list RawRow) : list Row :=
  filter (λ r, Text r ≠ []) (set_Text clean_text lower <$> raw).

(** Rows in ascending [Id_x], and within one [Id_x] no row labelled 0
    before a row labelled 1. *)
Definition sorted_by_Id_x_Label (pairs : list Pair) : Prop :=
  ∀ (i j : nat) p q, (i < j)%nat → pairs !! i = Some p → pairs !! j = Some q →
    Id_x p ≤ Id_x q ∧ (Id_x p = Id_x q → Label p = 0 → Label q = 0).

(** A computation that leaves the files as they are, whatever it returns
    or raises; and one that does so whenever it raises. *)
Definition keeps_files {A} (m : M A) : Prop :=
  ∀ w r w', m w = (r, w') → files w' = files w.
Definition raising_keeps_files {A} (m : M A) : Prop :=
  ∀ w e w', m w = (Raise e, w') → files w' = files w.

(** ** A small corpus and stand-ins for the helpers, for the examples *)

(** A text cleaner: drops what stands between [<] (60) and [>] (62). *)
Fixpoint strip_tags_from (inside : bool) (s : str) : str :=
  match s with
  | [] => []
  | c :: s' =>
      if inside then strip_tags_from (negb (c =? 62)%N) s'
      else if (c =? 60)%N then strip_tags_from true s'
      else c :: strip_tags_from false s'
  end.
Definition strip_tags : str → str := strip_tags_from false.

(** A lowering of the letters of ASCII and Latin-1: [A]-[Z] and the
    capitals from code point 192 to 222 (but the sign 215) move up by 32. *)
Definition ex_lower_char (c : N) : N :=
  if ((65 <=? c) && (c <=? 90)
      || (192 <=? c) && (c <=? 222) && negb (c =? 215))%N
  then (c + 32)%N else c.
Definition ex_lower (s : str) : str := ex_lower_char <$> s.

(** The bytes of a text of code points below 256, for the file stand-ins. *)
Definition ex_bytes (s : str) : string :=
  string_of_list_ascii (ascii_of_N <$> s).

Definition ex_questions : list RawRow :=
  [ mkRawRow 1 100 "<p>What is X?</p>" "2019-01-01";
    mkRawRow 2 200 "<hr>" "2019-01-02";
    mkRawRow 2 200 "How do I do Y?" "2019-01-02";
    mkRawRow 3 300 "Why Z?" "2019-01-03";
    mkRawRow 1 100 "What is X, again?" "2019-01-04";
    mkRawRow 4 400 "<br>" "2019-01-05" ].

Definition ex_dupes : list RawRow :=
  [ mkRawRow 5 100 "What is X?" "2019-02-01";
    mkRawRow 6 100 "What exactly is X?" "2019-02-02";
    mkRawRow 7 200 "How to do Y?" "2019-02-03";
    mkRawRow 8 300 "Why Z?" "2019-02-04";
    mkRawRow 2 200 "How do I do Y?" "2019-02-05";
    mkRawRow 5 100 "What is X, once more?" "2019-02-06";
    mkRawRow 9 500 "Where is W?" "2019-02-07" ].

Definition ex_answers : list RawAnswer :=
  [ mkRawAnswer 100 "X is a letter.";
    mkRawAnswer 200 "Use <b>Y</b>.";
    mkRawAnswer 300 "Because.";
    mkRawAnswer 100 "X is the 24th letter.";
    mkRawAnswer 600 "Nobody asked." ].

(** The rows of the corpus that reach [verify_data_integrity]. *)
Definition ex_q1 : Row := mkRow 1 100 "<p>What is X?</p>" "2019-01-01" "what is x?".
Definition ex_q2 : Row := mkRow 2 200 "How do I do Y?" "2019-01-02" "how do i do y?".
Definition ex_q3 : Row := mkRow 3 300 "Why Z?" "2019-01-03" "why z?".
Definition ex_d5 : Row := mkRow 5 100 "What is X?" "2019-02-01" "what is x?".
Definition ex_d6 : Row := mkRow 6 100 "What exactly is X?" "2019-02-02" "what exactly is x?".
Definition ex_d7 : Row := mkRow 7 200 "How to do Y?" "2019-02-03" "how to do y?".
Definition ex_d8 : Row := mkRow 8 300 "Why Z?" "2019-02-04" "why z?".
Definition ex_clean_answers : list Answer :=
  [ mkAnswer 100 "X is a letter." "x is a letter.";
    mkAnswer 200 "Use <b>Y</b>." "use y.";
    mkAnswer 300 "Because." "because.";
    mkAnswer 100 "X is the 24th letter." "x is the 24th letter." ].

(** A duplicate in capitals with an accent, placed first: its text has the
    five code points of [ÉCOLE] (six bytes in UTF-8), and its cleaned text
    the five of [école]. *)
Definition ex_ecole : RawRow :=
  mkRawRow 10 100 [201; 67; 79; 76; 69]%N "2019-02-08".
Definition ex_dupes_accented : list RawRow := ex_ecole :: ex_dupes.
Definition ex_d10 : Row :=
  mkRow 10 100 [201; 67; 79; 76; 69]%N "2019-02-08" [233; 99; 111; 108; 101]%N.

(** The pairing tables of the example: test, then train. *)
Definition ex_pairs_test : list Pair :=
  [ mkPair 5 100 "what is x?" 1 "what is x?" 100 1 2;
    mkPair 5 100 "what is x?" 2 "how do i do y?" 200 0 2;
    mkPair 7 200 "how to do y?" 2 "how do i do y?" 200 1 2;
    mkPair 7 200 "how to do y?" 1 "what is x?" 100 0 2 ].
Definition ex_pairs_train : list Pair :=
  [ mkPair 6 100 "what exactly is x?" 1 "what is x?" 100 1 20;
    mkPair 6 100 "what exactly is x?" 2 "how do i do y?" 200 0 20 ].

(** A sampler: the first row of every label, whatever the fraction. *)
Fixpoint first_per_label (seen : list value) (rows : list Row) (labels : list value)
    : list Row :=
  match rows, labels with
  | r :: rows', l :: labels' =>
      if decide (l ∈ seen) then first_per_label seen rows' labels'
      else r :: first_per_label (l :: seen) rows' labels'
  | _, _ => []
  end.
Definition ex_round_sample_strat
    (dupes : list Row) (labels : list value) (frac : Q) (g : N) : list Row * N :=
  (first_per_label [] dupes labels, (g + 1)%N).

(** A pairing function: every dupe with the first [k] questions. *)
Definition ex_random_merge
    (dupes questions : list Row) (k : Z) (g : N) : list Merged * N :=
  (d ← dupes; q ← take (Z.to_nat k) questions;
   [mkMerged (Id d) (AnswerId d) (Text d) (Id q) (Text q) (AnswerId q) k],
   (g + 1)%N).

(** A remote store holding the corpus. *)
Definition ex_read_csv_gz (url : string) : result (list RawRow) :=
  if decide (url = "https://bostondata.blob.core.windows.net/stackoverflow/orig-q.tsv.gz"%string)
  then Ok ex_questions
  else if decide (url = "https://bostondata.blob.core.windows.net/stackoverflow/dup-q.tsv.gz"%string)
  then Ok ex_dupes
  else Raise OSError.
Definition ex_read_csv_gz_accented (url : string) : result (list RawRow) :=
  if decide (url = "https://bostondata.blob.core.windows.net/stackoverflow/dup-q.tsv.gz"%string)
  then Ok ex_dupes_accented
  else ex_read_csv_gz url.
Definition ex_read_csv_gz_answers (url : string) : result (list RawAnswer) :=
  if decide (url = "https://bostondata.blob.core.windows.net/stackoverflow/ans.tsv.gz"%string)
  then Ok ex_answers
  else Raise OSError.

(** A one-column file format: the [Text] of each row on a line. *)
Definition ex_to_csv (rows : list Row) : string :=
  String.concat "" ((λ r, ex_bytes (Text r) +:+ String "010" "") <$> rows).
Definition ex_pairs_to_csv (pairs : list Pair) : string :=
  String.concat ""
    ((λ p, ex_bytes (Text_x p) +:+ String "009" (ex_bytes (Text_y p)) +:+ String "010" "")
       <$> pairs).
Fixpoint ex_lines (cur : string) (s : string) : list string :=
  match s with
  | EmptyString => if decide (cur = ""%string) then [] else [cur]
  | String c s' =>
      if Ascii.eqb c "010" then cur :: ex_lines "" s'
      else ex_lines (cur +:+ String c "") s'
  end.
Definition ex_read_csv (content : string) : result (list Row) :=
  match ex_lines "" content with
  | [] => Raise OSError
  | lines => Ok ((λ t : string, mkRow 0 0 t "" t) <$> lines)
  end.

(** Two worlds: nothing on disk, and both cache files on disk. *)
Definition ex_fresh : World := mkWorld ∅ 0 [].
Definition ex_cached : World :=
  mkWorld (<["/srv/data_folder/dupes_test.tsv"%string := ex_to_csv [ex_d5; ex_d7]]>
           (<["/srv/data_folder/questions.tsv"%string := ex_to_csv [ex_q1; ex_q2]]> ∅))
          0 [].

(** The pipeline on the stand-ins, with [directory = "/srv"]. *)
Definition ex_create : Q → Z → Z → Z → bool → M (list Row * list Row) :=
  create_stack_overflow_data "/srv" strip_tags ex_lower ex_read_csv_gz ex_read_csv_gz_answers
    ex_round_sample_strat ex_random_merge ex_read_csv ex_to_csv ex_pairs_to_csv.
Definition ex_create_accented : Q → Z → Z → Z → bool → M (list Row * list Row) :=
  create_stack_overflow_data "/srv" strip_tags ex_lower ex_read_csv_gz_accented
    ex_read_csv_gz_answers
    ex_round_sample_strat ex_random_merge ex_read_csv ex_to_csv ex_pairs_to_csv.

(** What [ex_read_csv] makes of the two cache files. *)
Definition ex_loaded_questions : list Row :=
  [ mkRow 0 0 "what is x?" "" "what is x?";
    mkRow 0 0 "how do i do y?" "" "how do i do y?" ].
Definition ex_loaded_dupes_test : list Row :=
  [ mkRow 0 0 "what is x?" "" "what is x?";
    mkRow 0 0 "how to do y?" "" "how to do y?" ].

(** A sampler that returns no row, and so misses every class. *)
Definition ex_empty_sampler
    (dupes : list Row) (labels : list value) (frac : Q) (g : N) : list Row * N :=
  ([], (g + 1)%N).

(** * Properties *)

(** ** Selecting rows by a mask *)

Section Masks.
Context {A : Type}.
Implicit Types (df : list A) (mask : list bool).

Lemma loc_fmap (f : A → bool) df :
  loc df (f <$> df) = filter (λ r, f r) df.
Proof.
  induction df as [|r df IH]; [done|].
  cbn [fmap list_fmap loc]. rewrite filter_cons, IH.
  destruct (f r); cbn; reflexivity.
Qed.

Lemma loc_sublist df mask : loc df mask `sublist_of` df.
Proof.
  revert mask. induction df as [|r df IH]; intros [|[] mask]; cbn;
    try apply sublist_nil_l.
  - by apply sublist_skip.
  - by apply sublist_cons.
Qed.

Lemma elem_of_loc_fmap (f : A → bool) df r :
  r ∈ loc df (f <$> df) ↔ r ∈ df ∧ f r = true.
Proof.
  rewrite loc_fmap, list_elem_of_filter, Is_true_true. tauto.
Qed.

Lemma mask_not_fmap (f : A → bool) df :
  mask_not (f <$> df) = (λ r, negb (f r)) <$> df.
Proof. unfold mask_not. by rewrite <- list_fmap_compose. Qed.

Lemma mask_and_fmap (f g : A → bool) df :
  mask_and (f <$> df) (g <$> df) = (λ r, f r && g r) <$> df.
Proof. unfold mask_and. induction df; cbn; [done|]. by f_equal. Qed.

Lemma isin_fmap (col : A → Z) df values :
  isin (col <$> df) values = (λ r, bool_decide (col r ∈ values)) <$> df.
Proof. unfold isin. by rewrite <- list_fmap_compose. Qed.

Lemma len_ge_fmap (col : A → str) df k :
  series_ge (str_len (col <$> df)) k
  = (λ r, bool_decide (k ≤ Z.of_nat (length (col r)))) <$> df.
Proof. unfold series_ge, str_len. by rewrite <- !list_fmap_compose. Qed.

Lemma len_gt_fmap (col : A → str) df k :
  series_gt (str_len (col <$> df)) k
  = (λ r, bool_decide (k < Z.of_nat (length (col r)))) <$> df.
Proof. unfold series_gt, str_len. by rewrite <- !list_fmap_compose. Qed.

(** [df[col.isin(values)]] keeps exactly the rows whose [col] is among
    [values]. *)
Lemma elem_of_loc_isin (col : A → Z) df values r :
  r ∈ loc df (isin (col <$> df) values) ↔ r ∈ df ∧ col r ∈ values.
Proof. by rewrite isin_fmap, elem_of_loc_fmap, bool_decide_eq_true. Qed.

Lemma elem_of_loc_not_isin (col : A → Z) df values r :
  r ∈ loc df (mask_not (isin (col <$> df) values)) ↔ r ∈ df ∧ col r ∉ values.
Proof.
  rewrite isin_fmap, mask_not_fmap, elem_of_loc_fmap, negb_true_iff,
    bool_decide_eq_false. tauto.
Qed.

Lemma elem_of_loc_isin_and (col : A → Z) df values1 values2 r :
  r ∈ loc df (mask_and (isin (col <$> df) values1) (isin (col <$> df) values2))
  ↔ r ∈ df ∧ col r ∈ values1 ∧ col r ∈ values2.
Proof.
  rewrite !isin_fmap, mask_and_fmap, elem_of_loc_fmap, andb_true_iff,
    !bool_decide_eq_true. tauto.
Qed.

Lemma elem_of_loc_len_ge (col : A → str) df k r :
  r ∈ loc df (series_ge (str_len (col <$> df)) k)
  ↔ r ∈ df ∧ k ≤ Z.of_nat (length (col r)).
Proof. by rewrite len_ge_fmap, elem_of_loc_fmap, bool_decide_eq_true. Qed.

Lemma elem_of_loc_len_gt (col : A → str) df k r :
  r ∈ loc df (series_gt (str_len (col <$> df)) k)
  ↔ r ∈ df ∧ k < Z.of_nat (length (col r)).
Proof. by rewrite len_gt_fmap, elem_of_loc_fmap, bool_decide_eq_true. Qed.

(** A value of a column of the selected rows comes from a selected row. *)
Lemma elem_of_col (col : A → Z) df a :
  a ∈ col <$> df ↔ ∃ r, r ∈ df ∧ col r = a.
Proof.
  rewrite list_elem_of_fmap. split.
  - intros (r & -> & Hr). eauto.
  - intros (r & Hr & <-). eauto.
Qed.

End Masks.

Lemma all_isin s values :
  all (isin s values) = true ↔ ∀ x, x ∈ s → x ∈ values.
Proof.
  unfold all, isin. rewrite forallb_forall. setoid_rewrite <- list_elem_of_In.
  split.
  - intros H x Hx. eapply bool_decide_eq_true_1, (H (bool_decide (x ∈ values))).
    apply list_elem_of_fmap. eauto.
  - intros H b [x [-> Hx]]%list_elem_of_fmap. apply bool_decide_eq_true_2. auto.
Qed.

Lemma assert_Ok c : assert c = Ok tt ↔ c = true.
Proof. destruct c; cbn; split; congruence. Qed.

Lemma result_bind_Ok {A B} (m : result A) (k : A → result B) b :
  (m ≫= k) = Ok b → ∃ a, m = Ok a ∧ k a = Ok b.
Proof. destruct m as [a|e]; cbn; [eauto | discriminate]. Qed.

(** ** Dropping repeated index labels *)

Section Duplicated.
Context {A : Type} (key : A → Z).
Implicit Types (df : list A) (seen : list Z).

Lemma loc_not_duplicated_from seen df r :
  r ∈ loc df (mask_not (duplicated_from seen (key <$> df))) →
  (key r ∉ seen) ∧ first_with key r df.
Proof.
  revert seen r. induction df as [|x df IH]; intros seen r; cbn.
  { intros []%elem_of_nil. }
  assert (Hrec : ∀ r', r' ∈ loc df (mask_not (duplicated_from (key x :: seen) (key <$> df))) →
                       (key r' ∉ seen) ∧ first_with key r' (x :: df)).
  { intros r' [Hr' (l1 & l2 & -> & Hl1)]%IH.
    apply not_elem_of_cons in Hr' as [Hne Hr']. split; [done|].
    exists (x :: l1), l2. split; [done|].
    cbn. apply not_elem_of_cons. done. }
  case_bool_decide as Hx; cbn; [apply Hrec|].
  intros [->|Hr]%elem_of_cons; [|by apply Hrec].
  split; [done|]. exists [], df. split; [done|]. apply not_elem_of_nil.
Qed.

Lemma NoDup_loc_not_duplicated_from seen df :
  NoDup (key <$> loc df (mask_not (duplicated_from seen (key <$> df)))).
Proof.
  revert seen. induction df as [|x df IH]; intros seen; cbn.
  { constructor. }
  case_bool_decide as Hx; cbn; [apply IH|].
  constructor; [|apply IH].
  intros [r [Hk Hr]]%list_elem_of_fmap.
  apply loc_not_duplicated_from in Hr as [Hr _].
  apply Hr. rewrite Hk. apply list_elem_of_here.
Qed.

(** [df[~df.index.duplicated(keep='first')]] has pairwise distinct labels,
    and each row it keeps is the first of [df] with its label. *)
Lemma NoDup_drop_duplicated df :
  NoDup (key <$> loc df (mask_not (duplicated (key <$> df)))).
Proof. apply NoDup_loc_not_duplicated_from. Qed.

Lemma drop_duplicated_first df r :
  r ∈ loc df (mask_not (duplicated (key <$> df))) → first_with key r df.
Proof. intros H. by apply loc_not_duplicated_from in H as [_ H]. Qed.

Lemma NoDup_loc df mask : NoDup (key <$> df) → NoDup (key <$> loc df mask).
Proof.
  intros H. apply (sublist_NoDup _ _ H), fmap_sublist, loc_sublist.
Qed.

End Duplicated.

(** ** Distinct values and group counts *)

Section Unique.
Context {A : Type} `{EqDecision A}.
Implicit Types (s seen : list A).

Lemma elem_of_unique_from seen s x :
  x ∈ unique_from seen s ↔ x ∈ s ∧ x ∉ seen.
Proof.
  revert seen. induction s as [|y s IH]; intros seen; cbn.
  { rewrite !elem_of_nil. tauto. }
  case_decide as Hy.
  - rewrite IH, elem_of_cons. split; [tauto|].
    intros [[->|Hx] Hn]; [contradiction|tauto].
  - rewrite !elem_of_cons, IH, not_elem_of_cons. split.
    + intros [->|[Hx [Hne Hn]]]; tauto.
    + intros [[->|Hx] Hn]; [tauto|].
      destruct (decide (x = y)); tauto.
Qed.

Lemma NoDup_unique_from seen s : NoDup (unique_from seen s).
Proof.
  revert seen. induction s as [|y s IH]; intros seen; cbn; [constructor|].
  case_decide as Hy; [apply IH|]. constructor; [|apply IH].
  rewrite elem_of_unique_from, not_elem_of_cons. tauto.
Qed.

Lemma elem_of_unique s x : x ∈ unique s ↔ x ∈ s.
Proof.
  unfold unique. rewrite elem_of_unique_from, elem_of_nil. tauto.
Qed.

Lemma NoDup_unique s : NoDup (unique s).
Proof. apply NoDup_unique_from. Qed.

End Unique.

Lemma elem_of_index_where_ge s m k :
  k ∈ index_where_ge (groupby_count s) m ↔ k ∈ s ∧ m ≤ count_of k s.
Proof.
  unfold index_where_ge, series_ge. rewrite <- list_fmap_compose.
  rewrite list_elem_of_fmap. setoid_rewrite elem_of_loc_fmap.
  unfold groupby_count. setoid_rewrite list_elem_of_fmap.
  setoid_rewrite merge_sort_Permutation. setoid_rewrite elem_of_unique.
  split.
  - intros ([k' c] & -> & (k'' & [= -> ->] & Hk) & Hc). cbn in *.
    apply bool_decide_eq_true_1 in Hc. done.
  - intros [Hk Hc]. exists (k, count_of k s). split; [done|]. split; [eauto|].
    cbn. by apply bool_decide_eq_true_2.
Qed.

Section Counting.
Context {A : Type} (col : A → Z).
Implicit Types (df : list A).

(** The count of a key in a column is the number of rows that hold it. *)
Lemma count_of_rows a df :
  count_of a (col <$> df) = Z.of_nat (length (filter (λ r, col r = a) df)).
Proof.
  unfold count_of. do 2 f_equal.
  induction df as [|r df IH]; [done|].
  cbn [fmap list_fmap]. rewrite !filter_cons. fold (fmap col df).
  destruct (decide (col r = a)); cbn; by rewrite IH.
Qed.

(** Selecting by [col.isin(values)] keeps every row of a retained key. *)
Lemma count_of_loc_isin a df values :
  a ∈ values →
  count_of a (col <$> loc df (isin (col <$> df) values)) = count_of a (col <$> df).
Proof.
  intros Ha. rewrite !count_of_rows, isin_fmap, loc_fmap. do 2 f_equal.
  induction df as [|r df IH]; [done|].
  rewrite (filter_cons (λ r, col r = a)).
  rewrite (filter_cons (λ r, Is_true (bool_decide (col r ∈ values)))).
  destruct (decide (col r = a)) as [Hr|Hr].
  - rewrite decide_True by (apply bool_decide_pack; by rewrite Hr).
    by rewrite filter_cons, decide_True, IH.
  - case_decide; [by rewrite filter_cons, decide_False|done].
Qed.

End Counting.

(** ** clean_data: the referential closure *)

(** Lines 93-95: whatever the frames before them, the three restrictions
    leave frames on which the four assertions of [verify_data_integrity]
    hold. *)
Lemma closure_integrity (answers : list Answer) (dupes questions : list Row) :
  let questions' :=
    loc questions
      (mask_and (isin (AnswerId <$> questions) (ans_index answers))
                (isin (AnswerId <$> questions) (AnswerId <$> dupes))) in
  let answers' := loc answers (isin (ans_index answers) (AnswerId <$> questions')) in
  let dupes' := loc dupes (isin (AnswerId <$> dupes) (AnswerId <$> questions')) in
  verify_data_integrity answers' dupes' questions' = Ok tt.
Proof.
  intros questions' answers' dupes'.
  assert (Hq : ∀ r, r ∈ questions' →
            r ∈ questions ∧ AnswerId r ∈ ans_index answers
            ∧ AnswerId r ∈ AnswerId <$> dupes).
  { intros r. apply elem_of_loc_isin_and. }
  assert (H1 : all (isin (AnswerId <$> questions') (ans_index answers')) = true).
  { apply all_isin. intros x (r & Hr & <-)%elem_of_col.
    destruct (Hq r Hr) as (_ & (a & Ha & Hid)%elem_of_col & _).
    apply elem_of_col. exists a. split; [|done].
    apply elem_of_loc_isin. split; [done|].
    fold (ans_index answers). rewrite Hid. apply elem_of_col. eauto. }
  assert (H2 : all (isin (ans_index answers') (AnswerId <$> questions')) = true).
  { apply all_isin. intros x (a & Ha & <-)%elem_of_col.
    by apply elem_of_loc_isin in Ha as [_ Ha]. }
  assert (H3 : all (isin (AnswerId <$> questions') (AnswerId <$> dupes')) = true).
  { apply all_isin. intros x (r & Hr & <-)%elem_of_col.
    destruct (Hq r Hr) as (_ & _ & (d & Hd & Hid)%elem_of_col).
    apply elem_of_col. exists d. split; [|done].
    apply elem_of_loc_isin. split; [done|].
    rewrite Hid. apply elem_of_col. eauto. }
  assert (H4 : all (isin (AnswerId <$> dupes') (AnswerId <$> questions')) = true).
  { apply all_isin. intros x (d & Hd & <-)%elem_of_col.
    by apply elem_of_loc_isin in Hd as [_ Hd]. }
  unfold verify_data_integrity. by rewrite H1, H2, H3, H4.
Qed.

Section CleanData.
Variable clean_text : str → str.
Variable lower : str → str.

(** The rows of a raw frame whose cleaned text is not empty, with their
    column [Text]. *)
Lemma loc_nonempty_Text (raw : list RawRow) :
  let df := set_Text clean_text lower <$> raw in
  loc df (series_gt (str_len (Text <$> df)) 0) = with_text clean_text lower raw.
Proof.
  cbn. rewrite len_gt_fmap, loc_fmap. apply list_filter_iff. intros r.
  rewrite bool_decide_spec. destruct (Text r); cbn; split; (done || lia).
Qed.

(** The frames [clean_data] holds at line 96, spelled out. *)
Lemma clean_data_closure_Ok answers dupes questions show a d q :
  clean_data_closure clean_text lower answers dupes questions show = Ok (a, d, q) →
  let Q0 := with_text clean_text lower questions in
  let D0 := with_text clean_text lower dupes in
  let A0 := set_ans_Text clean_text lower <$> answers in
  let A0 := loc A0 (series_gt (str_len (ans_Text <$> A0)) 0) in
  let D1 := loc D0 (mask_not (isin (index D0) (index Q0))) in
  let Q1 := loc Q0 (mask_not (duplicated (index Q0))) in
  let D2 := loc D1 (mask_not (duplicated (index D1))) in
  q = loc Q1 (mask_and (isin (AnswerId <$> Q1) (ans_index A0))
                       (isin (AnswerId <$> Q1) (AnswerId <$> D2)))
  ∧ a = loc A0 (isin (ans_index A0) (AnswerId <$> q))
  ∧ d = loc D2 (isin (AnswerId <$> D2) (AnswerId <$> q)).
Proof.
  unfold clean_data_closure. cbv zeta. rewrite !loc_nonempty_Text.
  intros (_ & _ & [= <- <- <-])%result_bind_Ok. done.
Qed.

End CleanData.

Section CleanDataClaims.
Variable clean_text : str → str.
Variable lower : str → str.

Lemma clean_data_Ok answers dupes min_dupes min_text questions show res :
  clean_data clean_text lower answers dupes min_dupes min_text questions show = Ok res →
  ∃ a d q,
    clean_data_closure clean_text lower answers dupes questions show = Ok (a, d, q)
    ∧ verify_data_integrity a d q = Ok tt
    ∧ clean_data_restrict d q min_dupes min_text show = Ok res.
Proof.
  unfold clean_data.
  intros ([[a d] q] & Hc & ([] & Hv & Hr)%result_bind_Ok)%result_bind_Ok.
  eauto 6.
Qed.

(** The frames [clean_data] returns, spelled out from those that passed
    [verify_data_integrity]. *)
Lemma clean_data_restrict_Ok d q min_dupes min_text show d' lbl q' :
  clean_data_restrict d q min_dupes min_text show = Ok (d', lbl, q') →
  let Q1 := loc q (series_ge (str_len (Text <$> q)) min_text) in
  let D1 := loc d (series_ge (str_len (Text <$> d)) min_text) in
  let Q2 := loc Q1 (isin (AnswerId <$> Q1) (AnswerId <$> D1)) in
  let D2 := loc D1 (isin (AnswerId <$> D1) (AnswerId <$> Q2)) in
  let answerid_min := index_where_ge (groupby_count (AnswerId <$> D2)) min_dupes in
  q' = loc Q2 (isin (AnswerId <$> Q2) answerid_min)
  ∧ d' = loc D2 (isin (AnswerId <$> D2) answerid_min)
  ∧ lbl = "AnswerId"%string
  ∧ all (isin (AnswerId <$> q') (AnswerId <$> d')) = true
  ∧ all (isin (AnswerId <$> d') (AnswerId <$> q')) = true.
Proof.
  unfold clean_data_restrict, reset_index. cbv zeta.
  intros ([] & _ & H)%result_bind_Ok.
  apply result_bind_Ok in H as ([] & H1%assert_Ok & H).
  apply result_bind_Ok in H as ([] & H2%assert_Ok & H).
  apply result_bind_Ok in H as ([] & _ & [= <- <- <-]).
  done.
Qed.

(** C1. Every row of the Questions and of the Duplicates frame that
    [clean_data] returns has a cleaned [Text] of at least [min_text]
    characters (code points, as [str.len] counts them), whatever the input
    and whatever [min_text]. *)
Theorem clean_data_min_text answers dupes min_dupes min_text questions show d' lbl q' :
  clean_data clean_text lower answers dupes min_dupes min_text questions show
    = Ok (d', lbl, q') →
  (∀ r, r ∈ q' → min_text ≤ Z.of_nat (length (Text r)))
  ∧ (∀ r, r ∈ d' → min_text ≤ Z.of_nat (length (Text r))).
Proof.
  intros (a & d & q & _ & _ & Hr)%clean_data_Ok.
  apply clean_data_restrict_Ok in Hr as (-> & -> & _). split; intros r.
  - intros [[[_ Hlen]%elem_of_loc_len_ge _]%elem_of_loc_isin _]%elem_of_loc_isin.
    exact Hlen.
  - intros [[[_ Hlen]%elem_of_loc_len_ge _]%elem_of_loc_isin _]%elem_of_loc_isin.
    exact Hlen.
Qed.

(** C2. Every [AnswerId] that occurs in the Duplicates frame returned by
    [clean_data] is the [AnswerId] of at least [min_dupes] rows of that
    frame, whatever the input and whatever [min_dupes]. *)
Theorem clean_data_min_dupes answers dupes min_dupes min_text questions show d' lbl q' :
  clean_data clean_text lower answers dupes min_dupes min_text questions show
    = Ok (d', lbl, q') →
  ∀ a, a ∈ AnswerId <$> d' →
    min_dupes ≤ Z.of_nat (length (filter (λ r, AnswerId r = a) d')).
Proof.
  intros (a0 & d & q & _ & _ & Hr)%clean_data_Ok a.
  apply clean_data_restrict_Ok in Hr as (_ & -> & _).
  intros (r & [_ Hmin]%elem_of_loc_isin & <-)%elem_of_col.
  rewrite <- count_of_rows, count_of_loc_isin by done.
  by apply elem_of_index_where_ge in Hmin as [_ Hmin].
Qed.

(** C3. When [clean_data] completes, the Questions and the Duplicates
    frame it returns have the same set of [AnswerId] values. *)
Theorem clean_data_same_AnswerIds answers dupes min_dupes min_text questions show d' lbl q' :
  clean_data clean_text lower answers dupes min_dupes min_text questions show
    = Ok (d', lbl, q') →
  ∀ a, a ∈ AnswerId <$> q' ↔ a ∈ AnswerId <$> d'.
Proof.
  intros (a0 & d & q & _ & _ & Hr)%clean_data_Ok a.
  apply clean_data_restrict_Ok in Hr as (_ & _ & _ & Hqd & Hdq).
  split; [apply (proj1 (all_isin _ _) Hqd) | apply (proj1 (all_isin _ _) Hdq)].
Qed.

(** C10. The frames [clean_data] hands to [verify_data_integrity] satisfy
    its four inclusions, so none of its assertions fails there, whatever
    the input. *)
Theorem verify_data_integrity_passes answers dupes questions show a d q :
  clean_data_closure clean_text lower answers dupes questions show = Ok (a, d, q) →
  (∀ x, x ∈ AnswerId <$> q → x ∈ ans_index a)
  ∧ (∀ x, x ∈ ans_index a → x ∈ AnswerId <$> q)
  ∧ (∀ x, x ∈ AnswerId <$> q → x ∈ AnswerId <$> d)
  ∧ (∀ x, x ∈ AnswerId <$> d → x ∈ AnswerId <$> q)
  ∧ verify_data_integrity a d q = Ok tt.
Proof.
  intros H. apply clean_data_closure_Ok in H as (Hq & Ha & Hd).
  assert (Hv : verify_data_integrity a d q = Ok tt).
  { rewrite Ha, Hd, Hq. apply closure_integrity. }
  pose proof Hv as Hv'. unfold verify_data_integrity in Hv'.
  apply result_bind_Ok in Hv' as ([] & H1%assert_Ok & Hv').
  apply result_bind_Ok in Hv' as ([] & H2%assert_Ok & Hv').
  apply result_bind_Ok in Hv' as ([] & H3%assert_Ok & H4%assert_Ok).
  repeat split; try exact Hv; by apply all_isin.
Qed.

End CleanDataClaims.

(** ** clean_data: distinct Ids *)

Lemma elem_of_loc {A} (df : list A) mask r : r ∈ loc df mask → r ∈ df.
Proof. intros H. eapply elem_of_sublist; [exact H | apply loc_sublist]. Qed.

(** Dropping rows by a test on the key alone does not change which row is
    the first with a kept key. *)
Lemma first_with_filter {A} (key : A → Z) (f : Z → bool) r (df : list A) :
  first_with key r (filter (λ x, f (key x)) df) → first_with key r df.
Proof.
  intros (l1 & l2 & Heq & Hl1). revert l1 Heq Hl1.
  induction df as [|x df IH]; intros l1 Heq Hl1.
  { by destruct l1. }
  assert (Hr : f (key r) = true).
  { apply Is_true_true.
    refine (proj1 (proj1 (list_elem_of_filter (λ x, f (key x)) _ r) _)).
    rewrite Heq. apply elem_of_app. right. apply list_elem_of_here. }
  rewrite filter_cons in Heq. destruct (decide (f (key x))) as [Hx|Hx].
  - destruct l1 as [|y l1]; cbn in Heq; injection Heq as -> Heq.
    + exists [], df. split; [done|]. apply not_elem_of_nil.
    + cbn in Hl1. apply not_elem_of_cons in Hl1 as [Hne Hl1].
      destruct (IH l1 Heq Hl1) as (m1 & m2 & -> & Hm1).
      exists (y :: m1), m2. split; [done|]. cbn. by apply not_elem_of_cons.
  - destruct (IH l1 Heq Hl1) as (m1 & m2 & -> & Hm1).
    exists (x :: m1), m2. split; [done|]. cbn. apply not_elem_of_cons.
    split; [|done]. intros Heq'. apply Hx. rewrite <- Heq'. by apply Is_true_true.
Qed.

Section CleanDataIds.
Variable clean_text : str → str.
Variable lower : str → str.

(** The frames at line 96 hold no [Id] twice among the questions nor
    among the dupes, and each of their rows is the first of its raw
    frame with that [Id] and a cleaned text that is not empty. *)
Lemma clean_data_closure_Ids answers dupes questions show a d q :
  clean_data_closure clean_text lower answers dupes questions show = Ok (a, d, q) →
  NoDup (Id <$> q) ∧ NoDup (Id <$> d)
  ∧ (∀ r, r ∈ q → first_with Id r (with_text clean_text lower questions))
  ∧ (∀ r, r ∈ d → first_with Id r (with_text clean_text lower dupes)).
Proof.
  intros (Hq & _ & Hd)%clean_data_closure_Ok. unfold index in *.
  split_and!.
  - rewrite Hq. apply NoDup_loc, NoDup_drop_duplicated.
  - rewrite Hd. apply NoDup_loc, NoDup_drop_duplicated.
  - intros r Hr. rewrite Hq in Hr.
    by apply elem_of_loc, drop_duplicated_first in Hr.
  - intros r Hr. rewrite Hd in Hr.
    apply elem_of_loc, drop_duplicated_first in Hr.
    rewrite isin_fmap, mask_not_fmap, loc_fmap in Hr.
    exact (first_with_filter Id
             (λ z, negb (bool_decide (z ∈ Id <$> with_text clean_text lower questions)))
             r _ Hr).
Qed.

(** C9, as the code has it. The Questions and the Duplicates frame that
    [clean_data] returns hold no [Id] twice, and each of their rows is the
    first row of its raw frame with that [Id] whose cleaned text is not
    empty. (Answers are not de-duplicated.) *)
Theorem clean_data_distinct_Ids answers dupes min_dupes min_text questions show d' lbl q' :
  clean_data clean_text lower answers dupes min_dupes min_text questions show
    = Ok (d', lbl, q') →
  NoDup (Id <$> q') ∧ NoDup (Id <$> d')
  ∧ (∀ r, r ∈ q' → first_with Id r (with_text clean_text lower questions))
  ∧ (∀ r, r ∈ d' → first_with Id r (with_text clean_text lower dupes)).
Proof.
  intros (a & d & q & Hc & _ & Hr)%clean_data_Ok.
  apply clean_data_closure_Ids in Hc as (Hq & Hd & Hfq & Hfd).
  apply clean_data_restrict_Ok in Hr as (-> & -> & _).
  split_and!.
  - by do 3 apply NoDup_loc.
  - by do 3 apply NoDup_loc.
  - intros r Hr. by do 3 apply elem_of_loc in Hr; apply Hfq.
  - intros r Hr. by do 3 apply elem_of_loc in Hr; apply Hfd.
Qed.

End CleanDataIds.

(** C9 as stated fails. On the example corpus the Answers frame that
    passes [verify_data_integrity] holds the Id 100 twice, and the question
    with Id 2 that is kept is the second raw row with that Id (the first
    one cleans to the empty text); [clean_data] completes on that input. *)
Lemma cleaned_answers_repeat_Id :
  clean_data_closure strip_tags ex_lower ex_answers ex_dupes ex_questions true
    = Ok (ex_clean_answers, [ex_d5; ex_d6; ex_d7; ex_d8], [ex_q1; ex_q2; ex_q3])
  ∧ ¬ NoDup (ans_Id <$> ex_clean_answers)
  ∧ ¬ first_with Id ex_q2 (set_Text strip_tags ex_lower <$> ex_questions)
  ∧ clean_data strip_tags ex_lower ex_answers ex_dupes 1 8 ex_questions true
    = Ok ([ex_d5; ex_d6; ex_d7], "AnswerId"%string, [ex_q1; ex_q2]).
Proof.
  split_and!.
  - vm_compute. reflexivity.
  - intros H. cbn in H. apply NoDup_cons in H as [H _]. apply H.
    do 2 apply list_elem_of_further. apply list_elem_of_here.
  - intros (l1 & l2 & Heq & Hl1).
    destruct l1 as [|r1 [|r2 l1]]; try discriminate Heq.
    injection Heq as <- <- _. apply Hl1. cbn.
    apply list_elem_of_further, list_elem_of_here.
  - vm_compute. reflexivity.
Qed.

Lemma clean_data_min_text_witness :
  set_Text strip_tags ex_lower ex_ecole = ex_d10
  ∧ Z.of_nat (length (Text ex_d10)) = 5
  ∧ clean_data strip_tags ex_lower ex_answers ex_dupes_accented 1 5 ex_questions true
    = Ok ([ex_d10; ex_d5; ex_d6; ex_d7; ex_d8], "AnswerId"%string, [ex_q1; ex_q2; ex_q3])
  ∧ clean_data strip_tags ex_lower ex_answers ex_dupes_accented 1 6 ex_questions true
    = Ok ([ex_d5; ex_d6; ex_d7; ex_d8], "AnswerId"%string, [ex_q1; ex_q2; ex_q3])
  ∧ (∀ r, r ∈ [ex_q1; ex_q2; ex_q3] → 6 ≤ Z.of_nat (length (Text r)))
  ∧ (∀ r, r ∈ [ex_d5; ex_d6; ex_d7; ex_d8] → 6 ≤ Z.of_nat (length (Text r))).
Proof.
  split; [vm_compute; reflexivity|].
  split; [vm_compute; reflexivity|].
  split; [vm_compute; reflexivity|].
  split; [vm_compute; reflexivity|].
  apply (clean_data_min_text strip_tags ex_lower ex_answers ex_dupes_accented 1 6
           ex_questions true [ex_d5; ex_d6; ex_d7; ex_d8] "AnswerId" [ex_q1; ex_q2; ex_q3]).
  vm_compute. reflexivity.
Defined.

Lemma clean_data_min_dupes_witness :
  clean_data strip_tags ex_lower ex_answers ex_dupes 2 8 ex_questions true
    = Ok ([ex_d5; ex_d6], "AnswerId"%string, [ex_q1])
  ∧ ∀ a, a ∈ AnswerId <$> [ex_d5; ex_d6] →
      2 ≤ Z.of_nat (length (filter (λ r, AnswerId r = a) [ex_d5; ex_d6])).
Proof.
  split; [vm_compute; reflexivity|].
  apply (clean_data_min_dupes strip_tags ex_lower ex_answers ex_dupes 2 8 ex_questions true
           [ex_d5; ex_d6] "AnswerId" [ex_q1]).
  vm_compute. reflexivity.
Defined.

Lemma clean_data_same_AnswerIds_witness :
  clean_data strip_tags ex_lower ex_answers ex_dupes 1 8 ex_questions true
    = Ok ([ex_d5; ex_d6; ex_d7], "AnswerId"%string, [ex_q1; ex_q2])
  ∧ ∀ a, a ∈ AnswerId <$> [ex_q1; ex_q2] ↔ a ∈ AnswerId <$> [ex_d5; ex_d6; ex_d7].
Proof.
  split; [vm_compute; reflexivity|].
  apply (clean_data_same_AnswerIds strip_tags ex_lower ex_answers ex_dupes 1 8 ex_questions true
           [ex_d5; ex_d6; ex_d7] "AnswerId" [ex_q1; ex_q2]).
  vm_compute. reflexivity.
Defined.

Lemma clean_data_distinct_Ids_witness :
  clean_data strip_tags ex_lower ex_answers ex_dupes 1 8 ex_questions true
    = Ok ([ex_d5; ex_d6; ex_d7], "AnswerId"%string, [ex_q1; ex_q2])
  ∧ NoDup (Id <$> [ex_q1; ex_q2]) ∧ NoDup (Id <$> [ex_d5; ex_d6; ex_d7])
  ∧ (∀ r, r ∈ [ex_q1; ex_q2] → first_with Id r (with_text strip_tags ex_lower ex_questions))
  ∧ (∀ r, r ∈ [ex_d5; ex_d6; ex_d7] → first_with Id r (with_text strip_tags ex_lower ex_dupes)).
Proof.
  split; [vm_compute; reflexivity|].
  apply (clean_data_distinct_Ids strip_tags ex_lower ex_answers ex_dupes 1 8 ex_questions true
           [ex_d5; ex_d6; ex_d7] "AnswerId" [ex_q1; ex_q2]).
  vm_compute. reflexivity.
Defined.

Lemma verify_data_integrity_passes_witness :
  clean_data_closure strip_tags ex_lower ex_answers ex_dupes ex_questions true
    = Ok (ex_clean_answers, [ex_d5; ex_d6; ex_d7; ex_d8], [ex_q1; ex_q2; ex_q3])
  ∧ verify_data_integrity ex_clean_answers [ex_d5; ex_d6; ex_d7; ex_d8] [ex_q1; ex_q2; ex_q3]
    = Ok tt.
Proof.
  split; [vm_compute; reflexivity|].
  apply (verify_data_integrity_passes strip_tags ex_lower ex_answers ex_dupes ex_questions true
           ex_clean_answers [ex_d5; ex_d6; ex_d7; ex_d8] [ex_q1; ex_q2; ex_q3]).
  vm_compute. reflexivity.
Defined.

(** ** clean_data completes, but for its prints on empty frames *)

(** The two assertions at the end of [clean_data] hold of the frames
    they are applied to. *)
Lemma restrict_integrity (D2 Q2 : list Row) (answerid_min : list Z) :
  (∀ k, k ∈ answerid_min → k ∈ AnswerId <$> D2) →
  (∀ x, x ∈ AnswerId <$> D2 → x ∈ AnswerId <$> Q2) →
  let Q3 := loc Q2 (isin (AnswerId <$> Q2) answerid_min) in
  let D3 := loc D2 (isin (AnswerId <$> D2) answerid_min) in
  all (isin (AnswerId <$> Q3) (AnswerId <$> D3)) = true
  ∧ all (isin (AnswerId <$> D3) (AnswerId <$> Q3)) = true.
Proof.
  intros Hmin HDQ Q3 D3. split; apply all_isin.
  - intros x (r & [Hr Hx]%elem_of_loc_isin & <-)%elem_of_col.
    destruct (proj1 (elem_of_col _ _ _) (Hmin _ Hx)) as (r' & Hr' & Heq).
    apply elem_of_col. exists r'. split; [|done].
    apply elem_of_loc_isin. split; [done|]. by rewrite Heq.
  - intros x (r & [Hr Hx]%elem_of_loc_isin & <-)%elem_of_col.
    destruct (proj1 (elem_of_col _ _ _) (HDQ _ (proj2 (elem_of_col _ _ _)
                (ex_intro _ r (conj Hr eq_refl))))) as (r' & Hr' & Heq).
    apply elem_of_col. exists r'. split; [|done].
    apply elem_of_loc_isin. split; [done|]. by rewrite Heq.
Qed.

Lemma clean_data_restrict_cases d q min_dupes min_text show :
  (∃ d' q', clean_data_restrict d q min_dupes min_text show
            = Ok (d', "AnswerId"%string, q'))
  ∨ (show = true
     ∧ clean_data_restrict d q min_dupes min_text show = Raise ZeroDivisionError).
Proof.
  unfold clean_data_restrict, reset_index. cbv zeta.
  set (Q1 := loc q (series_ge (str_len (Text <$> q)) min_text)).
  set (D1 := loc d (series_ge (str_len (Text <$> d)) min_text)).
  set (Q2 := loc Q1 (isin (AnswerId <$> Q1) (AnswerId <$> D1))).
  set (D2 := loc D1 (isin (AnswerId <$> D1) (AnswerId <$> Q2))).
  set (answerid_min := index_where_ge (groupby_count (AnswerId <$> D2)) min_dupes).
  destruct (restrict_integrity D2 Q2 answerid_min) as [H1 H2].
  { intros k Hk. by apply elem_of_index_where_ge in Hk as [Hk _]. }
  { intros x (r & [_ Hr]%elem_of_loc_isin & <-)%elem_of_col. exact Hr. }
  cbv zeta in H1, H2. rewrite H1, H2.
  set (D3 := loc D2 (isin (AnswerId <$> D2) answerid_min)).
  set (Q3 := loc Q2 (isin (AnswerId <$> Q2) answerid_min)).
  clearbody D3 Q3. clear.
  destruct show; cbn; [|left; eauto].
  destruct d as [|r0 d]; cbn; [right; done|].
  destruct D3; cbn; [right; done|left; eauto].
Qed.

Section CleanDataCompletes.
Variable clean_text : str → str.
Variable lower : str → str.

Lemma clean_data_closure_cases answers dupes questions show :
  (∃ a d q, clean_data_closure clean_text lower answers dupes questions show = Ok (a, d, q))
  ∨ (show = true ∧ with_text clean_text lower questions = []
     ∧ clean_data_closure clean_text lower answers dupes questions show = Raise IndexError).
Proof.
  unfold clean_data_closure. cbv zeta. rewrite !loc_nonempty_Text.
  destruct show; [|left; cbn; eauto].
  destruct (with_text clean_text lower questions) as [|r Q0] eqn:HQ0.
  - right. done.
  - left. cbn. eauto.
Qed.

(** [clean_data] raises only when [show_output] is set, and then from a
    print: [IndexError] when no question has a cleaned text that is not
    empty, [ZeroDivisionError] when a Duplicates frame it reports on is
    empty. No assertion of [clean_data] fails. *)
Lemma clean_data_raises answers dupes min_dupes min_text questions show e :
  clean_data clean_text lower answers dupes min_dupes min_text questions show = Raise e →
  show = true
  ∧ ((e = IndexError ∧ with_text clean_text lower questions = []) ∨ e = ZeroDivisionError).
Proof.
  unfold clean_data.
  destruct (clean_data_closure_cases answers dupes questions show)
    as [(a & d & q & Hc) | (-> & HQ & Hc)]; rewrite Hc; cbn.
  - pose proof Hc as (Hq & Ha & Hd)%clean_data_closure_Ok.
    assert (Hv : verify_data_integrity a d q = Ok tt).
    { rewrite Ha, Hd, Hq. apply closure_integrity. }
    rewrite Hv. cbn.
    destruct (clean_data_restrict_cases d q min_dupes min_text show)
      as [(d' & q' & ->) | [-> ->]]; [discriminate|].
    intros [= <-]. auto.
  - intros [= <-]. auto.
Qed.

Lemma clean_data_completes answers dupes min_dupes min_text questions :
  ∃ d' q',
    clean_data clean_text lower answers dupes min_dupes min_text questions false
    = Ok (d', "AnswerId"%string, q').
Proof.
  destruct (clean_data clean_text lower answers dupes min_dupes min_text questions false)
    as [[[d' lbl] q']|e] eqn:H.
  - pose proof H as (a & d & q & _ & _ & Hr)%clean_data_Ok.
    apply clean_data_restrict_Ok in Hr as (_ & _ & -> & _). eauto.
  - by apply clean_data_raises in H as [[=] _].
Qed.

End CleanDataCompletes.

(** ** Computations on the world *)

Lemma M_bind_Ok {A B} (m : M A) (k : A → M B) w b w' :
  (m ≫= k) w = (Ok b, w') → ∃ a w1, m w = (Ok a, w1) ∧ k a w1 = (Ok b, w').
Proof.
  unfold mbind, M_bind. destruct (m w) as [[a|e] w1]; [eauto | discriminate].
Qed.

Lemma lift_Ok {A} (r : result A) w a w1 :
  lift r w = (Ok a, w1) → r = Ok a ∧ w1 = w.
Proof. unfold lift. by intros [= -> ->]. Qed.

Lemma draw_Ok {A} (f : N → A * N) w a w1 :
  draw f w = (Ok a, w1) →
  ∃ g, f (rng w) = (a, g)
       ∧ w1 = {| files := files w; rng := g; trace := trace w |}.
Proof. unfold draw. destruct (f (rng w)) as [a' g]. intros [= -> <-]. eauto. Qed.

(** ** The order of the pairing tables *)

Global Instance pair_le_total : Total pair_le.
Proof. intros p q. unfold pair_le. lia. Qed.

Global Instance pair_le_trans : Transitive pair_le.
Proof. intros p q r. unfold pair_le. lia. Qed.

Lemma set_Label_matches m :
  Label (set_Label m) = 1 ↔ AnswerId_x (set_Label m) = AnswerId_y (set_Label m).
Proof.
  unfold set_Label; cbn.
  case_bool_decide; cbn; split; (done || lia).
Qed.

Lemma set_Label_nonneg m : 0 ≤ Label (set_Label m).
Proof. unfold set_Label; cbn. case_bool_decide; cbn; lia. Qed.

Lemma insert_sorted_Permutation p pairs : insert_sorted p pairs ≡ₚ p :: pairs.
Proof.
  induction pairs as [|q pairs IH]; cbn; [done|].
  destruct (decide (pair_le p q)); [done|].
  rewrite IH. apply perm_swap.
Qed.

Lemma sort_values_Permutation pairs : sort_values pairs ≡ₚ pairs.
Proof.
  induction pairs as [|p pairs IH]; cbn; [done|].
  fold (sort_values pairs). by rewrite insert_sorted_Permutation, IH.
Qed.

Lemma StronglySorted_insert_sorted p pairs :
  StronglySorted pair_le pairs → StronglySorted pair_le (insert_sorted p pairs).
Proof.
  induction 1 as [|q pairs Hs IH Hq]; cbn.
  { repeat constructor. }
  destruct (decide (pair_le p q)) as [Hpq|Hpq].
  - constructor; [by constructor|].
    constructor; [done|].
    eapply Forall_impl; [exact Hq|]. intros r Hr. by transitivity q.
  - constructor; [done|].
    rewrite insert_sorted_Permutation. constructor; [|done].
    by destruct (total pair_le p q).
Qed.

Lemma StronglySorted_sort_values pairs : StronglySorted pair_le (sort_values pairs).
Proof.
  induction pairs as [|p pairs IH]; cbn; [constructor|].
  by apply StronglySorted_insert_sorted.
Qed.

(** Inserting a row that comes before every row selected by [P] leaves the
    selected rows in their order, with the row in front when selected. *)
Lemma insert_sorted_stable (P : Pair → Prop) `{∀ p, Decision (P p)} p pairs :
  (∀ q, P q → pair_le p q) →
  filter P (insert_sorted p pairs) = filter P (p :: pairs).
Proof.
  intros HP. induction pairs as [|q pairs IH]; cbn; [done|].
  destruct (decide (pair_le p q)) as [Hpq|Hpq]; [done|].
  rewrite (filter_cons P q (insert_sorted p pairs)), IH.
  rewrite !(filter_cons P).
  destruct (decide (P q)) as [Hq|Hq]; [by destruct Hpq; apply HP|done].
Qed.

Lemma insert_sorted_other (P : Pair → Prop) `{∀ p, Decision (P p)} p pairs :
  ¬ P p → filter P (insert_sorted p pairs) = filter P pairs.
Proof.
  intros HP. induction pairs as [|q pairs IH]; simpl.
  { by rewrite filter_cons_False. }
  destruct (decide (pair_le p q)).
  - by rewrite filter_cons_False.
  - by rewrite !(filter_cons P q), IH.
Qed.

(** The sort is stable: the rows with given [Id_x] and [Label] come out in
    the order they had. *)
Lemma sort_values_stable i l pairs :
  filter (λ p, Id_x p = i ∧ Label p = l) (sort_values pairs)
  = filter (λ p, Id_x p = i ∧ Label p = l) pairs.
Proof.
  induction pairs as [|p pairs IH]; [done|].
  change (sort_values (p :: pairs)) with (insert_sorted p (sort_values pairs)).
  destruct (decide (Id_x p = i ∧ Label p = l)) as [[Hi Hl]|Hp].
  - rewrite insert_sorted_stable.
    + by rewrite !(filter_cons _ p), IH.
    + intros q [Hqi Hql]. unfold pair_le. lia.
  - rewrite insert_sorted_other by done.
    by rewrite (filter_cons_False _ p pairs).
Qed.

Lemma elem_of_sort_values p pairs : p ∈ sort_values pairs ↔ p ∈ pairs.
Proof. by rewrite sort_values_Permutation. Qed.

Lemma sort_values_sorted (ms : list Merged) :
  sorted_by_Id_x_Label (sort_values (set_Label <$> ms)).
Proof.
  intros i j p q Hij Hp Hq.
  assert (Hle : pair_le p q).
  { pose proof (StronglySorted_sort_values (set_Label <$> ms)) as Hs.
    rewrite <- (take_drop j (sort_values (set_Label <$> ms))) in Hs.
    apply (StronglySorted_app_1_elem_of _ _ _ _ _ Hs).
    - apply elem_of_take. eauto.
    - apply (list_elem_of_lookup_2 _ 0%nat). rewrite lookup_drop.
      by rewrite Nat.add_0_r. }
  assert (Hq0 : 0 ≤ Label q).
  { apply list_elem_of_lookup_2 in Hq. apply (proj1 (elem_of_sort_values _ _)) in Hq.
    apply list_elem_of_fmap in Hq as (m & -> & _). apply set_Label_nonneg. }
  unfold pair_le in Hle. lia.
Qed.

(** ** split_duplicates *)

(** A subset that shows as many distinct values of a column as the whole
    shows all of them. *)
Lemma covers_column {A B} `{EqDecision B} (col : A → B) (part whole : list A) :
  (∀ r, r ∈ part → r ∈ whole) →
  length (unique (col <$> part)) = length (unique (col <$> whole)) →
  ∀ v, v ∈ col <$> whole → v ∈ col <$> part.
Proof.
  intros Hsub Hlen v Hv.
  assert (Hperm : unique (col <$> part) ≡ₚ unique (col <$> whole)).
  { apply submseteq_length_Permutation; [|by rewrite Hlen].
    apply NoDup_submseteq; [apply NoDup_unique|].
    intros x. rewrite !elem_of_unique.
    intros (r & -> & Hr)%list_elem_of_fmap. apply list_elem_of_fmap. eauto. }
  apply elem_of_unique. rewrite Hperm. by apply elem_of_unique.
Qed.

Section SplitDuplicates.
Variable round_sample_strat : list Row → list value → Q → N → list Row * N.
Variable random_merge : list Row → list Row → Z → N → list Merged * N.

(** What a completed run of [split_duplicates] did, step by step. *)
Lemma split_duplicates_Ok dupes label_column match_ questions show test_size
    w bpt bptr dt w' :
  split_duplicates round_sample_strat random_merge
    dupes label_column match_ questions show test_size w
    = (Ok (bpt, bptr, dt), w') →
  ∃ labels test_labels g1 mtrain g2 mtest g3,
    getitem dupes label_column = Ok labels
    ∧ round_sample_strat dupes labels test_size (rng w) = (dt, g1)
    ∧ getitem dt label_column = Ok test_labels
    ∧ length (unique test_labels) = length (unique labels)
    ∧ random_merge (train_rows dupes dt) questions match_ g1 = (mtrain, g2)
    ∧ random_merge dt questions (Z.of_nat (length questions)) g2 = (mtest, g3)
    ∧ bptr = sort_values (set_Label <$> mtrain)
    ∧ bpt = sort_values (set_Label <$> mtest)
    ∧ w' = {| files := files w; rng := g3; trace := trace w |}.
Proof.
  unfold split_duplicates. intros H.
  apply M_bind_Ok in H as (labels & w1 & [Hl ->]%lift_Ok & H).
  apply M_bind_Ok in H as (dt' & w2 & (g1 & Hs & ->)%draw_Ok & H).
  apply M_bind_Ok in H as (tl & w3 & [Htl ->]%lift_Ok & H).
  apply M_bind_Ok in H as (al & w4 & [Hal ->]%lift_Ok & H).
  apply M_bind_Ok in H as ([] & w5 & [Ha%assert_Ok%bool_decide_eq_true_1 ->]%lift_Ok & H).
  apply M_bind_Ok in H as (mtrain & w6 & (g2 & Htr & ->)%draw_Ok & H).
  apply M_bind_Ok in H as (mtest & w7 & (g3 & Hte & ->)%draw_Ok & H).
  cbn in H. injection H as <- <- <- <-. cbn in *.
  rewrite Hl in Hal. injection Hal as <-.
  exists labels, tl, g1, mtrain, g2, mtest, g3. done.
Qed.

End SplitDuplicates.

Section SplitDuplicatesClaims.
Variable round_sample_strat : list Row → list value → Q → N → list Row * N.
Variable random_merge : list Row → list Row → Z → N → list Merged * N.

(** C4. In both pairing tables that [split_duplicates] returns, a row has
    [Label] 1 exactly when its [AnswerId_x] equals its [AnswerId_y],
    whatever frames the pairing function returned. *)
Theorem split_duplicates_Label dupes label_column match_ questions show test_size
    w bpt bptr dt w' :
  split_duplicates round_sample_strat random_merge
    dupes label_column match_ questions show test_size w
    = (Ok (bpt, bptr, dt), w') →
  (∀ p, p ∈ bptr → (Label p = 1 ↔ AnswerId_x p = AnswerId_y p))
  ∧ (∀ p, p ∈ bpt → (Label p = 1 ↔ AnswerId_x p = AnswerId_y p)).
Proof.
  intros H. apply split_duplicates_Ok in H
    as (labels & tl & g1 & mtrain & g2 & mtest & g3 & _ & _ & _ & _ & _ & _ & -> & -> & _).
  split; intros p [m [-> _]]%elem_of_sort_values%list_elem_of_fmap;
    apply set_Label_matches.
Qed.

(** C5. Both pairing tables that [split_duplicates] returns are in
    ascending [Id_x], and among rows of one [Id_x] those labelled 1 come
    before those labelled 0. *)
Theorem split_duplicates_sorted dupes label_column match_ questions show test_size
    w bpt bptr dt w' :
  split_duplicates round_sample_strat random_merge
    dupes label_column match_ questions show test_size w
    = (Ok (bpt, bptr, dt), w') →
  sorted_by_Id_x_Label bptr ∧ sorted_by_Id_x_Label bpt.
Proof.
  intros H. apply split_duplicates_Ok in H
    as (labels & tl & g1 & mtrain & g2 & mtest & g3 & _ & _ & _ & _ & _ & _ & -> & -> & _).
  split; apply sort_values_sorted.
Qed.

(** C6. The train rows, which [split_duplicates] pairs into
    [balanced_pairs_train], share no [Id] with the test rows; and when the
    sampler returned rows of the Duplicates frame, an [Id] is in that
    frame exactly when it is a train or a test [Id]. *)
Theorem split_duplicates_partition dupes label_column match_ questions show test_size
    w bpt bptr dt w' :
  split_duplicates round_sample_strat random_merge
    dupes label_column match_ questions show test_size w
    = (Ok (bpt, bptr, dt), w') →
  let dupes_train := train_rows dupes dt in
  (∃ g, bptr = sort_values (set_Label <$> (random_merge dupes_train questions match_ g).1))
  ∧ (∀ i, i ∈ Id <$> dupes_train → i ∉ Id <$> dt)
  ∧ ((∀ r, r ∈ dt → r ∈ dupes) →
     ∀ i, i ∈ Id <$> dupes ↔ i ∈ Id <$> dupes_train ∨ i ∈ Id <$> dt).
Proof.
  intros H dupes_train. apply split_duplicates_Ok in H
    as (labels & tl & g1 & mtrain & g2 & mtest & g3 & _ & _ & _ & _ & Htr & _ & -> & _).
  assert (Htrain : ∀ r, r ∈ dupes_train ↔ r ∈ dupes ∧ Id r ∉ Id <$> dt).
  { intros r. apply elem_of_loc_not_isin. }
  split_and!.
  - exists g1. fold dupes_train in Htr. by rewrite Htr.
  - intros i (r & [_ Hr]%Htrain & <-)%elem_of_col. exact Hr.
  - intros Hsub i. split.
    + intros (r & Hr & <-)%elem_of_col.
      destruct (decide (Id r ∈ Id <$> dt)) as [Hin|Hout]; [by right|].
      left. apply elem_of_col. exists r. split; [|done]. by apply Htrain.
    + intros [(r & [Hr _]%Htrain & <-)%elem_of_col | (r & Hr & <-)%elem_of_col];
        apply elem_of_col; eauto.
Qed.

(** C7. When [split_duplicates] completes on the label column [AnswerId]
    and the sampler returned rows of the Duplicates frame, every
    [AnswerId] of that frame is the [AnswerId] of a test row. *)
Theorem split_duplicates_covers_AnswerIds dupes match_ questions show test_size
    w bpt bptr dt w' :
  split_duplicates round_sample_strat random_merge
    dupes "AnswerId" match_ questions show test_size w
    = (Ok (bpt, bptr, dt), w') →
  (∀ r, r ∈ dt → r ∈ dupes) →
  ∀ a, a ∈ AnswerId <$> dupes → a ∈ AnswerId <$> dt.
Proof.
  intros H Hsub a Ha. apply split_duplicates_Ok in H
    as (labels & tl & g1 & mtrain & g2 & mtest & g3 & Hl & _ & Htl & Hlen & _).
  cbn in Hl, Htl. injection Hl as <-. injection Htl as <-.
  assert (Hc : VInt a ∈ (λ r, VInt (AnswerId r)) <$> dt).
  { apply (covers_column _ dt dupes Hsub Hlen).
    apply list_elem_of_fmap in Ha as (r & -> & Hr). apply list_elem_of_fmap. eauto. }
  apply list_elem_of_fmap in Hc as (r & [= ->] & Hr).
  apply list_elem_of_fmap. eauto.
Qed.

End SplitDuplicatesClaims.

Lemma ex_split_duplicates :
  split_duplicates ex_round_sample_strat ex_random_merge
    [ex_d5; ex_d6; ex_d7] "AnswerId" 20 [ex_q1; ex_q2] true 0.21%Q ex_fresh
  = (Ok (ex_pairs_test, ex_pairs_train, [ex_d5; ex_d7]), mkWorld ∅ 3 []).
Proof. vm_compute. reflexivity. Qed.

Lemma split_duplicates_Label_witness :
  (∀ p, p ∈ ex_pairs_train → (Label p = 1 ↔ AnswerId_x p = AnswerId_y p))
  ∧ (∀ p, p ∈ ex_pairs_test → (Label p = 1 ↔ AnswerId_x p = AnswerId_y p)).
Proof.
  apply (split_duplicates_Label ex_round_sample_strat ex_random_merge
           [ex_d5; ex_d6; ex_d7] "AnswerId" 20 [ex_q1; ex_q2] true 0.21%Q ex_fresh
           ex_pairs_test ex_pairs_train [ex_d5; ex_d7] (mkWorld ∅ 3 [])).
  vm_compute. reflexivity.
Defined.

Lemma split_duplicates_sorted_witness :
  sorted_by_Id_x_Label ex_pairs_train ∧ sorted_by_Id_x_Label ex_pairs_test.
Proof.
  apply (split_duplicates_sorted ex_round_sample_strat ex_random_merge
           [ex_d5; ex_d6; ex_d7] "AnswerId" 20 [ex_q1; ex_q2] true 0.21%Q ex_fresh
           ex_pairs_test ex_pairs_train [ex_d5; ex_d7] (mkWorld ∅ 3 [])).
  vm_compute. reflexivity.
Defined.

Lemma split_duplicates_partition_witness :
  (∀ r, r ∈ [ex_d5; ex_d7] → r ∈ [ex_d5; ex_d6; ex_d7])
  ∧ train_rows [ex_d5; ex_d6; ex_d7] [ex_d5; ex_d7] = [ex_d6]
  ∧ (∀ i, i ∈ Id <$> train_rows [ex_d5; ex_d6; ex_d7] [ex_d5; ex_d7] →
          i ∉ Id <$> [ex_d5; ex_d7])
  ∧ (∀ i, i ∈ Id <$> [ex_d5; ex_d6; ex_d7]
          ↔ i ∈ Id <$> train_rows [ex_d5; ex_d6; ex_d7] [ex_d5; ex_d7]
            ∨ i ∈ Id <$> [ex_d5; ex_d7]).
Proof.
  assert (Hsub : ∀ r, r ∈ [ex_d5; ex_d7] → r ∈ [ex_d5; ex_d6; ex_d7]).
  { intros r [->|[->|[]%elem_of_nil]%elem_of_cons]%elem_of_cons.
    - apply list_elem_of_here.
    - do 2 apply list_elem_of_further. apply list_elem_of_here. }
  destruct (split_duplicates_partition ex_round_sample_strat ex_random_merge
              [ex_d5; ex_d6; ex_d7] "AnswerId" 20 [ex_q1; ex_q2] true 0.21%Q ex_fresh
              ex_pairs_test ex_pairs_train [ex_d5; ex_d7] (mkWorld ∅ 3 []))
    as (_ & Hdisj & Hunion).
  { vm_compute. reflexivity. }
  split_and!; [exact Hsub | reflexivity | exact Hdisj | exact (Hunion Hsub)].
Defined.

Lemma split_duplicates_covers_AnswerIds_witness :
  (∀ r, r ∈ [ex_d5; ex_d7] → r ∈ [ex_d5; ex_d6; ex_d7])
  ∧ ∀ a, a ∈ AnswerId <$> [ex_d5; ex_d6; ex_d7] → a ∈ AnswerId <$> [ex_d5; ex_d7].
Proof.
  assert (Hsub : ∀ r, r ∈ [ex_d5; ex_d7] → r ∈ [ex_d5; ex_d6; ex_d7]).
  { intros r [->|[->|[]%elem_of_nil]%elem_of_cons]%elem_of_cons.
    - apply list_elem_of_here.
    - do 2 apply list_elem_of_further. apply list_elem_of_here. }
  split; [exact Hsub|].
  apply (split_duplicates_covers_AnswerIds ex_round_sample_strat ex_random_merge
           [ex_d5; ex_d6; ex_d7] 20 [ex_q1; ex_q2] true 0.21%Q ex_fresh
           ex_pairs_test ex_pairs_train [ex_d5; ex_d7] (mkWorld ∅ 3 [])).
  - vm_compute. reflexivity.
  - exact Hsub.
Defined.

(** ** create_stack_overflow_data: the cache *)

Section Cache.
Variable directory : string.
Variable clean_text : str → str.
Variable lower : str → str.
Variable read_csv_gz : string → result (list RawRow).
Variable read_csv_gz_answers : string → result (list RawAnswer).
Variable round_sample_strat : list Row → list value → Q → N → list Row * N.
Variable random_merge : list Row → list Row → Z → N → list Merged * N.
Variable read_csv : string → result (list Row).
Variable to_csv : list Row → string.
Variable pairs_to_csv : list Pair → string.

(** C8. With both [questions.tsv] and [dupes_test.tsv] on disk at entry,
    [create_stack_overflow_data] returns the two tables read from them
    (or raises what reading them raises): it reads those two files, in
    that order, fetches nothing, writes nothing and leaves the random
    generator alone. Otherwise a completed run returns the questions
    that [clean_data] returned and the test rows that [split_duplicates]
    returned, on the frames that [download_datasets] fetched, after
    [save_data]. *)
Theorem create_stack_overflow_data_cache
    test_size min_text min_dupes match_ show w :
  let outputs_path := directory +:+ "/data_folder" in
  let dupes_test_path := path_join outputs_path "dupes_test.tsv" in
  let questions_path := path_join outputs_path "questions.tsv" in
  let run :=
    create_stack_overflow_data directory clean_text lower read_csv_gz read_csv_gz_answers
      round_sample_strat random_merge read_csv to_csv pairs_to_csv
      test_size min_text min_dupes match_ show in
  (∀ cq cd,
     files w !! questions_path = Some cq →
     files w !! dupes_test_path = Some cd →
     run w =
       (questions ← read_csv cq; dupes_test ← read_csv cd; mret (questions, dupes_test),
        {| files := files w; rng := rng w;
           trace := trace w ++ ReadFile questions_path ::
                      match read_csv cq with
                      | Ok _ => [ReadFile dupes_test_path]
                      | Raise _ => []
                      end |}))
  ∧ (files w !! questions_path = None ∨ files w !! dupes_test_path = None →
     ∀ questions dupes_test w',
       run w = (Ok (questions, dupes_test), w') →
       ∃ answers dupes0 questions0 w1 dupes label_column bpt bptr w2,
         download_datasets read_csv_gz read_csv_gz_answers show w
           = (Ok (answers, dupes0, questions0), w1)
         ∧ clean_data clean_text lower answers dupes0 min_dupes min_text questions0 show
           = Ok (dupes, label_column, questions)
         ∧ split_duplicates round_sample_strat random_merge
             dupes label_column match_ questions show test_size w1
           = (Ok (bpt, bptr, dupes_test), w2)
         ∧ save_data to_csv pairs_to_csv bpt bptr dupes_test dupes_test_path
             outputs_path questions questions_path show w2
           = (Ok tt, w')).
Proof.
  intros outputs_path dupes_test_path questions_path run. split.
  - intros cq cd Hq Hd. subst run.
    unfold create_stack_overflow_data.
    fold outputs_path. fold dupes_test_path. fold questions_path.
    clearbody questions_path dupes_test_path.
    unfold mbind at 1, M_bind at 1, isfile at 1.
    rewrite (bool_decide_eq_true_2 _ (mk_is_Some _ _ Hd)).
    unfold mbind at 1, M_bind at 1, isfile at 1.
    rewrite (bool_decide_eq_true_2 _ (mk_is_Some _ _ Hq)).
    unfold pd_read_csv, read_file, get_file, log, lift, mbind, M_bind, mret, M_ret.
    cbn. rewrite Hq.
    destruct (read_csv cq) as [q|e]; cbn; [|done].
    rewrite Hd. rewrite <- (assoc_L (++)). cbn.
    destruct (read_csv cd) as [d|e]; cbn; done.
  - intros Hmiss questions dupes_test w' Hrun. subst run.
    unfold create_stack_overflow_data in Hrun.
    fold outputs_path in Hrun. fold dupes_test_path in Hrun.
    fold questions_path in Hrun.
    apply M_bind_Ok in Hrun as (b1 & w0 & Hb1 & Hrun).
    apply M_bind_Ok in Hrun as (cached & w0' & Hb2 & Hrun).
    assert (cached = false ∧ w0' = w) as [-> ->].
    { unfold isfile in Hb1. injection Hb1 as <- <-.
      case_bool_decide as H1.
      - unfold isfile in Hb2. injection Hb2 as <- <-.
        case_bool_decide as H2; [|done].
        destruct H1 as [? H1], H2 as [? H2], Hmiss as [Hm|Hm]; congruence.
      - by injection Hb2 as <- <-. }
    apply M_bind_Ok in Hrun as ([[answers dupes0] questions0] & w1 & Hdl & Hrun).
    apply M_bind_Ok in Hrun as ([[dupes lbl] q] & w1' & [Hcl ->]%lift_Ok & Hrun).
    apply M_bind_Ok in Hrun as ([[bpt bptr] dt] & w2 & Hsp & Hrun).
    apply M_bind_Ok in Hrun as ([] & w3 & Hsv & Hrun).
    injection Hrun as <- <- <-.
    exists answers, dupes0, questions0, w1, dupes, lbl, bpt, bptr, w2. done.
Qed.

End Cache.

Lemma create_stack_overflow_data_cache_witness :
  (files ex_cached !! "/srv/data_folder/questions.tsv"%string
     = Some (ex_to_csv [ex_q1; ex_q2])
   ∧ files ex_cached !! "/srv/data_folder/dupes_test.tsv"%string
     = Some (ex_to_csv [ex_d5; ex_d7])
   ∧ ex_create 0.21%Q 8 1 20 true ex_cached
     = (Ok (ex_loaded_questions, ex_loaded_dupes_test),
        mkWorld (files ex_cached) 0
          [ReadFile "/srv/data_folder/questions.tsv";
           ReadFile "/srv/data_folder/dupes_test.tsv"]))
  ∧ (files ex_fresh !! "/srv/data_folder/questions.tsv"%string = None
     ∧ (ex_create 0.21%Q 8 1 20 true ex_fresh).1 = Ok ([ex_q1; ex_q2], [ex_d5; ex_d7])
     ∧ ∃ answers dupes0 questions0 w1 dupes label_column bpt bptr w2,
         download_datasets ex_read_csv_gz ex_read_csv_gz_answers true ex_fresh
           = (Ok (answers, dupes0, questions0), w1)
         ∧ clean_data strip_tags ex_lower answers dupes0 1 8 questions0 true
           = Ok (dupes, label_column, [ex_q1; ex_q2])
         ∧ split_duplicates ex_round_sample_strat ex_random_merge
             dupes label_column 20 [ex_q1; ex_q2] true 0.21%Q w1
           = (Ok (bpt, bptr, [ex_d5; ex_d7]), w2)
         ∧ save_data ex_to_csv ex_pairs_to_csv bpt bptr [ex_d5; ex_d7]
             "/srv/data_folder/dupes_test.tsv" "/srv/data_folder"
             [ex_q1; ex_q2] "/srv/data_folder/questions.tsv" true w2
           = (Ok tt, (ex_create 0.21%Q 8 1 20 true ex_fresh).2)).
Proof.
  pose proof (create_stack_overflow_data_cache "/srv" strip_tags ex_lower ex_read_csv_gz
                ex_read_csv_gz_answers ex_round_sample_strat ex_random_merge
                ex_read_csv ex_to_csv ex_pairs_to_csv 0.21%Q 8 1 20 true) as Hthm.
  assert (Hq : files ex_cached !! "/srv/data_folder/questions.tsv"%string
               = Some (ex_to_csv [ex_q1; ex_q2])) by (vm_compute; reflexivity).
  assert (Hd : files ex_cached !! "/srv/data_folder/dupes_test.tsv"%string
               = Some (ex_to_csv [ex_d5; ex_d7])) by (vm_compute; reflexivity).
  assert (Hn : files ex_fresh !! "/srv/data_folder/questions.tsv"%string = None)
    by (vm_compute; reflexivity).
  split.
  - split_and!; [exact Hq | exact Hd |].
    exact (proj1 (Hthm ex_cached) _ _ Hq Hd).
  - split_and!; [exact Hn | vm_compute; reflexivity |].
    apply (proj2 (Hthm ex_fresh) (or_introl Hn)).
    vm_compute. reflexivity.
Defined.

(** * Further properties *)

(** ** clean_data: what it returns *)

Section CleanDataRows.
Variable clean_text : str → str.
Variable lower : str → str.

(** The frames at line 96 are made of rows of the raw frames, in their
    order. *)
Lemma clean_data_closure_rows answers dupes questions show a d q :
  clean_data_closure clean_text lower answers dupes questions show = Ok (a, d, q) →
  q `sublist_of` with_text clean_text lower questions
  ∧ d `sublist_of` with_text clean_text lower dupes
  ∧ (∀ r, r ∈ d → Id r ∉ Id <$> with_text clean_text lower questions)
  ∧ (∀ r, r ∈ q → AnswerId r ∈ ans_Id <$>
        filter (λ x, ans_Text x ≠ []) (set_ans_Text clean_text lower <$> answers)).
Proof.
  intros (Hq & _ & Hd)%clean_data_closure_Ok. unfold index in *. split_and!.
  - rewrite Hq. etrans; apply loc_sublist.
  - rewrite Hd. do 2 (etrans; [apply loc_sublist|]). apply loc_sublist.
  - intros r Hr. rewrite Hd in Hr. do 2 apply elem_of_loc in Hr.
    by apply elem_of_loc_not_isin in Hr as [_ Hr].
  - intros r Hr. rewrite Hq in Hr.
    apply elem_of_loc_isin_and in Hr as (_ & Hr & _).
    unfold ans_index in Hr. rewrite len_gt_fmap, loc_fmap in Hr.
    erewrite list_filter_iff; [exact Hr|].
    intros x. cbn. rewrite bool_decide_spec.
    destruct (ans_Text x); cbn; split; (done || lia).
Qed.

Lemma clean_data_rows answers dupes min_dupes min_text questions show d' lbl q' :
  clean_data clean_text lower answers dupes min_dupes min_text questions show
    = Ok (d', lbl, q') →
  ∃ a d q,
    clean_data_closure clean_text lower answers dupes questions show = Ok (a, d, q)
    ∧ q' `sublist_of` q ∧ d' `sublist_of` d.
Proof.
  intros (a & d & q & Hc & _ & Hr)%clean_data_Ok.
  apply clean_data_restrict_Ok in Hr as (-> & -> & _).
  exists a, d, q. split_and!; [done| |];
    (do 2 (etrans; [apply loc_sublist|])); apply loc_sublist.
Qed.

(** X1. No assertion of [clean_data] fails, neither those of
    [verify_data_integrity] (line 96) nor those of lines 125-126, whatever
    the input. *)
Theorem clean_data_no_assertion_failure
    answers dupes min_dupes min_text questions show :
  clean_data clean_text lower answers dupes min_dupes min_text questions show
    ≠ Raise AssertionError.
Proof.
  intros H. apply clean_data_raises in H as (_ & [[[=] _] | [=]]).
Qed.

(** X2. Without [show_output], [clean_data] returns on every input, and
    the label column it returns is ["AnswerId"]. *)
Theorem clean_data_quiet_returns answers dupes min_dupes min_text questions :
  ∃ d' q',
    clean_data clean_text lower answers dupes min_dupes min_text questions false
    = Ok (d', "AnswerId"%string, q').
Proof. apply clean_data_completes. Qed.

(** X3. With [show_output], [clean_data] raises [IndexError] at
    [questions.iloc[0, 1]] (line 86) when no question has a cleaned text
    that is not empty; in particular on an empty Questions frame. *)
Theorem clean_data_IndexError answers dupes min_dupes min_text questions :
  with_text clean_text lower questions = [] →
  clean_data clean_text lower answers dupes min_dupes min_text questions true
    = Raise IndexError.
Proof.
  intros H. unfold clean_data, clean_data_closure. cbv zeta.
  rewrite !loc_nonempty_Text, H. reflexivity.
Qed.

(** With the prints, lines 97-138 raise exactly when the Duplicates frame
    they would return is empty: then the frame is already empty at line
    107, or it is empty at line 137. *)
Lemma clean_data_restrict_loud d q min_dupes min_text d' lbl q' :
  clean_data_restrict d q min_dupes min_text false = Ok (d', lbl, q') →
  clean_data_restrict d q min_dupes min_text true
  = match d' with
    | [] => Raise ZeroDivisionError
    | _ :: _ => Ok (d', lbl, q')
    end.
Proof.
  intros H. pose proof H as (Hq' & Hd' & Hl & Hqd & Hdq)%clean_data_restrict_Ok.
  cbv zeta in Hq', Hd'.
  assert (Hsub : d' `sublist_of` d).
  { rewrite Hd'. do 2 (etrans; [apply loc_sublist|]). apply loc_sublist. }
  unfold clean_data_restrict, reset_index. cbv zeta.
  rewrite <- Hq', <- Hd', Hqd, Hdq, Hl.
  destruct d as [|r0 d].
  - apply sublist_nil_r in Hsub as ->. reflexivity.
  - cbn. by destruct d'.
Qed.

(** A completed run that returns no duplicate returns no question. *)
Lemma clean_data_restrict_empty d q min_dupes min_text show lbl q' :
  clean_data_restrict d q min_dupes min_text show = Ok ([], lbl, q') → q' = [].
Proof.
  intros (_ & _ & _ & Hqd & _)%clean_data_restrict_Ok.
  destruct q' as [|r q']; [done|]. exfalso.
  apply (elem_of_nil (AnswerId r)), (proj1 (all_isin _ _) Hqd), list_elem_of_here.
Qed.

(** With a question whose cleaned text is not empty, lines 80-95 do the
    same with and without the prints. *)
Lemma clean_data_closure_loud answers dupes questions :
  with_text clean_text lower questions ≠ [] →
  clean_data_closure clean_text lower answers dupes questions true
  = clean_data_closure clean_text lower answers dupes questions false.
Proof.
  intros Hne. unfold clean_data_closure. cbv zeta. rewrite !loc_nonempty_Text.
  by destruct (with_text clean_text lower questions).
Qed.

(** X4. [clean_data] raises only from its prints, so only with
    [show_output], and then exactly in two cases: [IndexError] when no
    question has a cleaned text that is not empty (line 86); and
    [ZeroDivisionError] when some question has one but the Duplicates frame
    left by the cleaning, the one the run without prints returns, is empty,
    so that the share of the largest class printed at line 107 or at line
    137 divides by its zero rows. *)
Theorem clean_data_failures answers dupes min_dupes min_text questions show e :
  clean_data clean_text lower answers dupes min_dupes min_text questions show = Raise e
  ↔ show = true
    ∧ ((e = IndexError ∧ with_text clean_text lower questions = [])
       ∨ (e = ZeroDivisionError
          ∧ with_text clean_text lower questions ≠ []
          ∧ clean_data clean_text lower answers dupes min_dupes min_text questions false
            = Ok ([], "AnswerId"%string, []))).
Proof.
  split.
  - intros H. pose proof (clean_data_raises _ _ _ _ _ _ _ _ _ H) as [Hs He].
    subst show. split; [done|].
    destruct (with_text clean_text lower questions) as [|r0 Q0] eqn:HQ0.
    { left. split; [|done]. revert H. unfold clean_data, clean_data_closure.
      cbv zeta. rewrite !loc_nonempty_Text, HQ0. by intros [= <-]. }
    right. assert (Hne : with_text clean_text lower questions ≠ []) by (by rewrite HQ0).
    rewrite <- HQ0. destruct He as [[_ He]|He]; [discriminate He|]. subst e.
    split; [done|]. split; [done|].
    destruct (clean_data_completes clean_text lower answers dupes min_dupes min_text questions)
      as (d' & q' & Hquiet).
    pose proof Hquiet as (a & d & q & Hc & Hv & Hr)%clean_data_Ok.
    unfold clean_data in H.
    rewrite clean_data_closure_loud, Hc in H by done.
    cbn -[clean_data_restrict verify_data_integrity] in H. rewrite Hv in H.
    cbn -[clean_data_restrict] in H.
    rewrite (clean_data_restrict_loud _ _ _ _ _ _ _ Hr) in H.
    destruct d' as [|r d']; [|discriminate H].
    apply clean_data_restrict_empty in Hr as ->. exact Hquiet.
  - intros [-> [[-> HQ0] | (-> & Hne & Hquiet)]].
    + unfold clean_data, clean_data_closure. cbv zeta.
      rewrite !loc_nonempty_Text, HQ0. reflexivity.
    + pose proof Hquiet as (a & d & q & Hc & Hv & Hr)%clean_data_Ok.
      unfold clean_data. rewrite clean_data_closure_loud, Hc by done.
      cbn -[clean_data_restrict verify_data_integrity]. rewrite Hv.
      cbn -[clean_data_restrict]. by rewrite (clean_data_restrict_loud _ _ _ _ _ _ _ Hr).
Qed.

(** X5. The frames [clean_data] returns are made of rows of the raw
    frames, in their order, each with [Text = lower (clean_text Text0)],
    [lower] being Python's [str.lower], and its other columns as read: rows
    are only dropped, never added, changed or reordered. *)
Theorem clean_data_rows_of_input answers dupes min_dupes min_text questions show d' lbl q' :
  clean_data clean_text lower answers dupes min_dupes min_text questions show
    = Ok (d', lbl, q') →
  q' `sublist_of` (set_Text clean_text lower <$> questions)
  ∧ d' `sublist_of` (set_Text clean_text lower <$> dupes).
Proof.
  intros (a & d & q & (Hq & Hd & _)%clean_data_closure_rows & Hq' & Hd')%clean_data_rows.
  split.
  - etrans; [exact Hq'|]. etrans; [exact Hq|]. apply sublist_filter.
  - etrans; [exact Hd'|]. etrans; [exact Hd|]. apply sublist_filter.
Qed.

(** X6. No row that [clean_data] returns has an empty cleaned [Text],
    also when [min_text] is zero or negative (lines 82-84). *)
Theorem clean_data_Text_nonempty answers dupes min_dupes min_text questions show d' lbl q' :
  clean_data clean_text lower answers dupes min_dupes min_text questions show
    = Ok (d', lbl, q') →
  (∀ r, r ∈ q' → Text r ≠ []) ∧ (∀ r, r ∈ d' → Text r ≠ []).
Proof.
  intros (a & d & q & (Hq & Hd & _)%clean_data_closure_rows & Hq' & Hd')%clean_data_rows.
  split; intros r Hr.
  - eapply elem_of_sublist in Hr; [|etrans; [exact Hq'|exact Hq]].
    by apply list_elem_of_filter in Hr as [Hr _].
  - eapply elem_of_sublist in Hr; [|etrans; [exact Hd'|exact Hd]].
    by apply list_elem_of_filter in Hr as [Hr _].
Qed.

(** X7. Every question that [clean_data] returns has an answer: a raw
    Answers row whose [Id] is the question's [AnswerId] and whose cleaned
    text is not empty (lines 83 and 93). *)
Theorem clean_data_questions_answered answers dupes min_dupes min_text questions show d' lbl q' :
  clean_data clean_text lower answers dupes min_dupes min_text questions show
    = Ok (d', lbl, q') →
  ∀ r, r ∈ q' →
    ∃ a, a ∈ answers ∧ rawans_Id a = AnswerId r
         ∧ lower (clean_text (rawans_Text0 a)) ≠ [].
Proof.
  intros (a & d & q & (_ & _ & _ & Ha)%clean_data_closure_rows & Hq' & _)%clean_data_rows.
  intros r Hr. eapply elem_of_sublist in Hr; [|exact Hq'].
  apply Ha in Hr. apply list_elem_of_fmap in Hr as (x & Hx & Hin).
  apply list_elem_of_filter in Hin as [Hne Hin].
  apply list_elem_of_fmap in Hin as (a0 & -> & Hin).
  exists a0. split_and!; [done | by rewrite Hx | exact Hne].
Qed.

(** X8. No duplicate that [clean_data] returns carries the [Id] of a
    question with a cleaned text that is not empty (line 89); so no [Id] is
    both that of a returned duplicate and that of a returned question. *)
Theorem clean_data_dupes_not_questions answers dupes min_dupes min_text questions show d' lbl q' :
  clean_data clean_text lower answers dupes min_dupes min_text questions show
    = Ok (d', lbl, q') →
  (∀ r, r ∈ d' → Id r ∉ Id <$> with_text clean_text lower questions)
  ∧ (∀ r s, r ∈ d' → s ∈ q' → Id r ≠ Id s).
Proof.
  intros (a & d & q & (Hq & _ & Hn & _)%clean_data_closure_rows & Hq' & Hd')%clean_data_rows.
  assert (H1 : ∀ r, r ∈ d' → Id r ∉ Id <$> with_text clean_text lower questions).
  { intros r Hr. apply Hn. by eapply elem_of_sublist. }
  split; [exact H1|]. intros r s Hr Hs Heq. apply (H1 r Hr).
  rewrite Heq. apply list_elem_of_fmap. exists s. split; [done|].
  eapply elem_of_sublist; [exact Hs|]. by etrans.
Qed.

End CleanDataRows.

Lemma clean_data_IndexError_witness :
  with_text strip_tags ex_lower [mkRawRow 4 400 "<br>" "2019-01-05"] = []
  ∧ clean_data strip_tags ex_lower ex_answers ex_dupes 1 8
      [mkRawRow 4 400 "<br>" "2019-01-05"] true
    = Raise IndexError.
Proof.
  split; [vm_compute; reflexivity|].
  apply (clean_data_IndexError strip_tags ex_lower ex_answers ex_dupes 1 8
           [mkRawRow 4 400 "<br>" "2019-01-05"]).
  vm_compute. reflexivity.
Defined.

Lemma clean_data_failures_witness :
  clean_data strip_tags ex_lower ex_answers [] 1 8 ex_questions true
    = Raise ZeroDivisionError
  ∧ with_text strip_tags ex_lower ex_questions ≠ []
  ∧ clean_data strip_tags ex_lower ex_answers [] 1 8 ex_questions false
    = Ok ([], "AnswerId"%string, []).
Proof.
  assert (H : clean_data strip_tags ex_lower ex_answers [] 1 8 ex_questions true
              = Raise ZeroDivisionError) by (vm_compute; reflexivity).
  split; [exact H|].
  destruct (proj1 (clean_data_failures strip_tags ex_lower ex_answers [] 1 8
                     ex_questions true ZeroDivisionError) H)
    as [_ [[He _] | (_ & Hne & Hquiet)]]; [discriminate He|].
  split; [exact Hne | exact Hquiet].
Defined.

Lemma clean_data_rows_of_input_witness :
  set_Text strip_tags ex_lower ex_ecole = ex_d10
  ∧ clean_data strip_tags ex_lower ex_answers ex_dupes_accented 1 5 ex_questions true
    = Ok ([ex_d10; ex_d5; ex_d6; ex_d7; ex_d8], "AnswerId"%string, [ex_q1; ex_q2; ex_q3])
  ∧ [ex_q1; ex_q2; ex_q3] `sublist_of` (set_Text strip_tags ex_lower <$> ex_questions)
  ∧ [ex_d10; ex_d5; ex_d6; ex_d7; ex_d8]
      `sublist_of` (set_Text strip_tags ex_lower <$> ex_dupes_accented).
Proof.
  split; [vm_compute; reflexivity|].
  split; [vm_compute; reflexivity|].
  apply (clean_data_rows_of_input strip_tags ex_lower ex_answers ex_dupes_accented 1 5
           ex_questions true
           [ex_d10; ex_d5; ex_d6; ex_d7; ex_d8] "AnswerId" [ex_q1; ex_q2; ex_q3]).
  vm_compute. reflexivity.
Defined.

Lemma clean_data_Text_nonempty_witness :
  clean_data strip_tags ex_lower ex_answers ex_dupes 1 0 ex_questions true
    = Ok ([ex_d5; ex_d6; ex_d7; ex_d8], "AnswerId"%string, [ex_q1; ex_q2; ex_q3])
  ∧ (∀ r, r ∈ [ex_q1; ex_q2; ex_q3] → Text r ≠ [])
  ∧ (∀ r, r ∈ [ex_d5; ex_d6; ex_d7; ex_d8] → Text r ≠ []).
Proof.
  split; [vm_compute; reflexivity|].
  apply (clean_data_Text_nonempty strip_tags ex_lower ex_answers ex_dupes 1 0 ex_questions true
           [ex_d5; ex_d6; ex_d7; ex_d8] "AnswerId" [ex_q1; ex_q2; ex_q3]).
  vm_compute. reflexivity.
Defined.

Lemma clean_data_questions_answered_witness :
  clean_data strip_tags ex_lower ex_answers ex_dupes 1 8 ex_questions true
    = Ok ([ex_d5; ex_d6; ex_d7], "AnswerId"%string, [ex_q1; ex_q2])
  ∧ ∀ r, r ∈ [ex_q1; ex_q2] →
      ∃ a, a ∈ ex_answers ∧ rawans_Id a = AnswerId r
           ∧ ex_lower (strip_tags (rawans_Text0 a)) ≠ [].
Proof.
  split; [vm_compute; reflexivity|].
  apply (clean_data_questions_answered strip_tags ex_lower ex_answers ex_dupes 1 8 ex_questions true
           [ex_d5; ex_d6; ex_d7] "AnswerId" [ex_q1; ex_q2]).
  vm_compute. reflexivity.
Defined.

Lemma clean_data_dupes_not_questions_witness :
  clean_data strip_tags ex_lower ex_answers ex_dupes 1 8 ex_questions true
    = Ok ([ex_d5; ex_d6; ex_d7], "AnswerId"%string, [ex_q1; ex_q2])
  ∧ (∀ r, r ∈ [ex_d5; ex_d6; ex_d7] → Id r ∉ Id <$> with_text strip_tags ex_lower ex_questions)
  ∧ (∀ r s, r ∈ [ex_d5; ex_d6; ex_d7] → s ∈ [ex_q1; ex_q2] → Id r ≠ Id s).
Proof.
  split; [vm_compute; reflexivity|].
  apply (clean_data_dupes_not_questions strip_tags ex_lower ex_answers ex_dupes 1 8 ex_questions true
           [ex_d5; ex_d6; ex_d7] "AnswerId" [ex_q1; ex_q2]).
  vm_compute. reflexivity.
Defined.

(** ** verify_data_integrity *)

Lemma all_isin_false s values :
  all (isin s values) = false → ¬ ∀ x, x ∈ s → x ∈ values.
Proof. intros Hf H. apply all_isin in H. congruence. Qed.

(** Case analysis on the assertion of [s.isin(values).all()]. *)
Local Ltac case_assertion s values H :=
  let H' := fresh in
  destruct (all (isin s values)) eqn:H';
  [pose proof (proj1 (all_isin _ _) H') as H
  |pose proof (all_isin_false _ _ H') as H]; clear H'; cbn.

(** X10. [verify_data_integrity] returns exactly when the questions'
    [AnswerId]s, the answers' [Id]s and the dupes' [AnswerId]s are one and
    the same set (so also on three empty frames), and raises
    [AssertionError] otherwise. *)
Theorem verify_data_integrity_spec answers dupes questions :
  (verify_data_integrity answers dupes questions = Ok tt
   ↔ (∀ x, x ∈ AnswerId <$> questions ↔ x ∈ ans_Id <$> answers)
     ∧ (∀ x, x ∈ AnswerId <$> questions ↔ x ∈ AnswerId <$> dupes))
  ∧ (verify_data_integrity answers dupes questions = Ok tt
     ∨ verify_data_integrity answers dupes questions = Raise AssertionError).
Proof.
  unfold verify_data_integrity, ans_index.
  case_assertion (AnswerId <$> questions) (ans_Id <$> answers) H1; [|split; [|by right]; split; [done|];
    intros [H _]; exfalso; apply H1; intros x; apply H].
  case_assertion (ans_Id <$> answers) (AnswerId <$> questions) H2; [|split; [|by right]; split; [done|];
    intros [H _]; exfalso; apply H2; intros x; apply H].
  case_assertion (AnswerId <$> questions) (AnswerId <$> dupes) H3; [|split; [|by right]; split; [done|];
    intros [_ H]; exfalso; apply H3; intros x; apply H].
  case_assertion (AnswerId <$> dupes) (AnswerId <$> questions) H4; [|split; [|by right]; split; [done|];
    intros [_ H]; exfalso; apply H4; intros x; apply H].
  split; [|by left]. split; [|done]. intros _.
  split; intros x; split; auto.
Qed.

(** ** split_duplicates: errors and effects *)

Lemma train_rows_filter dupes dupes_test :
  train_rows dupes dupes_test
  = filter (λ r, Id r ∉ Id <$> dupes_test) dupes.
Proof.
  unfold train_rows. rewrite isin_fmap, mask_not_fmap, loc_fmap.
  apply list_filter_iff. intros r.
  rewrite Is_true_true, negb_true_iff, bool_decide_eq_false. done.
Qed.

(** X15. When the Duplicates frame holds no [Id] twice and the test rows
    are rows of it without repetition, the train and the test rows add up
    to the frame: [len(dupes_train) + len(dupes_test) = len(dupes)]. *)
Theorem train_test_sizes (dupes dupes_test : list Row) :
  NoDup (Id <$> dupes) →
  NoDup (Id <$> dupes_test) →
  (∀ i, i ∈ Id <$> dupes_test → i ∈ Id <$> dupes) →
  (length (train_rows dupes dupes_test) + length dupes_test = length dupes)%nat.
Proof.
  intros Hd Ht Hsub. rewrite train_rows_filter.
  set (P := λ r : Row, Id r ∈ Id <$> dupes_test).
  assert (Hin : length (filter P dupes) = length dupes_test).
  { rewrite <- (length_fmap Id (filter P dupes)), <- (length_fmap Id dupes_test).
    apply Permutation_length, NoDup_Permutation; [|done|].
    - refine (sublist_NoDup _ _ Hd _). apply fmap_sublist, sublist_filter.
    - intros i. split.
      + intros (r & -> & [Hr _]%list_elem_of_filter)%list_elem_of_fmap. exact Hr.
      + intros Hi. destruct (proj1 (list_elem_of_fmap _ _ _) (Hsub i Hi)) as (r & -> & Hr).
        apply list_elem_of_fmap. exists r. split; [done|].
        apply list_elem_of_filter. done. }
  rewrite <- Hin, Nat.add_comm.
  rewrite <- length_app. apply Permutation_length, (filter_app_complement P).
Qed.

Section SplitDuplicatesEffects.
Variable round_sample_strat : list Row → list value → Q → N → list Row * N.
Variable random_merge : list Row → list Row → Z → N → list Merged * N.

(** X11. The two pairing tables hold exactly the rows that [random_merge]
    returned, labelled: none is dropped or repeated by the projection and
    the sort. The train pairing is asked for [N = match] on the train rows,
    the test pairing for [N = len(questions)] on the test rows. *)
Theorem split_duplicates_pairs dupes label_column match_ questions show test_size
    w bpt bptr dt w' :
  split_duplicates round_sample_strat random_merge
    dupes label_column match_ questions show test_size w
    = (Ok (bpt, bptr, dt), w') →
  ∃ g1 g2,
    bptr ≡ₚ set_Label <$> (random_merge (train_rows dupes dt) questions match_ g1).1
    ∧ bpt ≡ₚ set_Label <$>
               (random_merge dt questions (Z.of_nat (length questions)) g2).1.
Proof.
  intros H. apply split_duplicates_Ok in H
    as (labels & tl & g1 & mtrain & g2 & mtest & g3 & _ & _ & _ & _ & Htr & Hte & -> & -> & _).
  exists g1, g2. rewrite Htr, Hte. cbn.
  split; apply sort_values_Permutation.
Qed.

(** X12. A label column that the Duplicates frame does not have makes
    [split_duplicates] raise [KeyError] at once: the sampler is not called
    and the world is left as it was. *)
Theorem split_duplicates_KeyError dupes label_column match_ questions show test_size w :
  column_of label_column = None →
  split_duplicates round_sample_strat random_merge
    dupes label_column match_ questions show test_size w
  = (Raise KeyError, w).
Proof.
  intros H. unfold split_duplicates, getitem. rewrite H. reflexivity.
Qed.

(** X13. When the sampled rows do not show as many distinct labels as the
    whole frame, [split_duplicates] raises [AssertionError] (line 51)
    before any pairing: [random_merge] is not called, the random generator
    is as the sampler left it. *)
Theorem split_duplicates_AssertionError
    dupes label_column col match_ questions show test_size w dt g :
  column_of label_column = Some col →
  round_sample_strat dupes (col <$> dupes) test_size (rng w) = (dt, g) →
  length (unique (col <$> dt)) ≠ length (unique (col <$> dupes)) →
  split_duplicates round_sample_strat random_merge
    dupes label_column match_ questions show test_size w
  = (Raise AssertionError, {| files := files w; rng := g; trace := trace w |}).
Proof.
  intros Hc Hs Hne.
  unfold split_duplicates, getitem, mbind, M_bind, lift, draw. rewrite Hc. cbn.
  rewrite Hs. cbn. by rewrite bool_decide_eq_false_2.
Qed.

(** X14. [split_duplicates] reads and writes no file and fetches nothing,
    whether it returns or raises, and the only exceptions it raises are
    [KeyError] and [AssertionError]. *)
Theorem split_duplicates_no_io dupes label_column match_ questions show test_size
    w r w' :
  split_duplicates round_sample_strat random_merge
    dupes label_column match_ questions show test_size w = (r, w') →
  files w' = files w ∧ trace w' = trace w
  ∧ ∀ e, r = Raise e → e = KeyError ∨ e = AssertionError.
Proof.
  unfold split_duplicates, getitem, mbind, M_bind, lift, draw, mret, M_ret.
  destruct (column_of label_column) as [col|]; cbn;
    [|intros [= <- <-]; split_and!; [done..|intros e [= <-]; by left]].
  destruct (round_sample_strat _ _ _ _) as [dt g1]; cbn.
  case_bool_decide; cbn;
    [|intros [= <- <-]; split_and!; [done..|intros e [= <-]; by right]].
  destruct (random_merge _ _ match_ _) as [mtrain g2]; cbn.
  destruct (random_merge _ _ _ _) as [mtest g3]; cbn.
  intros [= <- <-]. split_and!; [done..|]. intros e [=].
Qed.

End SplitDuplicatesEffects.

Lemma train_test_sizes_witness :
  NoDup (Id <$> [ex_d5; ex_d6; ex_d7])
  ∧ NoDup (Id <$> [ex_d5; ex_d7])
  ∧ (∀ i, i ∈ Id <$> [ex_d5; ex_d7] → i ∈ Id <$> [ex_d5; ex_d6; ex_d7])
  ∧ (length (train_rows [ex_d5; ex_d6; ex_d7] [ex_d5; ex_d7]) + length [ex_d5; ex_d7]
     = length [ex_d5; ex_d6; ex_d7])%nat.
Proof.
  assert (H1 : NoDup (Id <$> [ex_d5; ex_d6; ex_d7])).
  { apply (bool_decide_unpack (NoDup _)). vm_compute. exact I. }
  assert (H2 : NoDup (Id <$> [ex_d5; ex_d7])).
  { apply (bool_decide_unpack (NoDup _)). vm_compute. exact I. }
  assert (H3 : ∀ i, i ∈ Id <$> [ex_d5; ex_d7] → i ∈ Id <$> [ex_d5; ex_d6; ex_d7]).
  { intros i Hi. cbn in *. apply elem_of_cons in Hi as [->|Hi].
    - apply list_elem_of_here.
    - apply elem_of_cons in Hi as [->|Hi]; [|by apply elem_of_nil in Hi].
      do 2 apply list_elem_of_further. apply list_elem_of_here. }
  split_and!; [exact H1 | exact H2 | exact H3 |].
  exact (train_test_sizes [ex_d5; ex_d6; ex_d7] [ex_d5; ex_d7] H1 H2 H3).
Defined.

Lemma split_duplicates_pairs_witness :
  ∃ g1 g2,
    ex_pairs_train ≡ₚ set_Label <$>
      (ex_random_merge (train_rows [ex_d5; ex_d6; ex_d7] [ex_d5; ex_d7])
         [ex_q1; ex_q2] 20 g1).1
    ∧ ex_pairs_test ≡ₚ set_Label <$>
        (ex_random_merge [ex_d5; ex_d7] [ex_q1; ex_q2]
           (Z.of_nat (length [ex_q1; ex_q2])) g2).1.
Proof.
  apply (split_duplicates_pairs ex_round_sample_strat ex_random_merge
           [ex_d5; ex_d6; ex_d7] "AnswerId" 20 [ex_q1; ex_q2] true 0.21%Q ex_fresh
           ex_pairs_test ex_pairs_train [ex_d5; ex_d7] (mkWorld ∅ 3 [])).
  vm_compute. reflexivity.
Defined.

Lemma split_duplicates_KeyError_witness :
  column_of "Label" = None
  ∧ split_duplicates ex_round_sample_strat ex_random_merge
      [ex_d5; ex_d6; ex_d7] "Label" 20 [ex_q1; ex_q2] true 0.21%Q ex_fresh
    = (Raise KeyError, ex_fresh).
Proof.
  split; [vm_compute; reflexivity|].
  apply (split_duplicates_KeyError ex_round_sample_strat ex_random_merge).
  vm_compute. reflexivity.
Defined.

Lemma split_duplicates_AssertionError_witness :
  column_of "AnswerId" = Some (λ r, VInt (AnswerId r))
  ∧ ex_empty_sampler [ex_d5; ex_d6; ex_d7]
      ((λ r, VInt (AnswerId r)) <$> [ex_d5; ex_d6; ex_d7]) 0.21%Q (rng ex_fresh)
    = ([], 1%N)
  ∧ length (unique ((λ r, VInt (AnswerId r)) <$> []))
    ≠ length (unique ((λ r, VInt (AnswerId r)) <$> [ex_d5; ex_d6; ex_d7]))
  ∧ split_duplicates ex_empty_sampler ex_random_merge
      [ex_d5; ex_d6; ex_d7] "AnswerId" 20 [ex_q1; ex_q2] true 0.21%Q ex_fresh
    = (Raise AssertionError,
       {| files := files ex_fresh; rng := 1%N; trace := trace ex_fresh |}).
Proof.
  assert (H3 : length (unique ((λ r, VInt (AnswerId r)) <$> []))
               ≠ length (unique ((λ r, VInt (AnswerId r)) <$> [ex_d5; ex_d6; ex_d7]))).
  { vm_compute. discriminate. }
  split_and!; [vm_compute; reflexivity | vm_compute; reflexivity | exact H3 |].
  apply (split_duplicates_AssertionError ex_empty_sampler ex_random_merge
           [ex_d5; ex_d6; ex_d7] "AnswerId" (λ r, VInt (AnswerId r))
           20 [ex_q1; ex_q2] true 0.21%Q ex_fresh [] 1%N);
    [vm_compute; reflexivity | vm_compute; reflexivity | exact H3].
Defined.

Lemma split_duplicates_no_io_witness :
  files (mkWorld ∅ 3 []) = files ex_fresh ∧ trace (mkWorld ∅ 3 []) = trace ex_fresh
  ∧ ∀ e, Ok (ex_pairs_test, ex_pairs_train, [ex_d5; ex_d7]) = Raise e →
         e = KeyError ∨ e = AssertionError.
Proof.
  apply (split_duplicates_no_io ex_round_sample_strat ex_random_merge
           [ex_d5; ex_d6; ex_d7] "AnswerId" 20 [ex_q1; ex_q2] true 0.21%Q ex_fresh).
  vm_compute. reflexivity.
Defined.

(** ** The output paths *)

Lemma path_join_inj a b1 b2 :
  String.prefix "/" b1 = false → String.prefix "/" b2 = false →
  path_join a b1 = path_join a b2 → b1 = b2.
Proof.
  unfold path_join. intros -> ->.
  destruct (bool_decide (a = ""%string) || ends_with_slash a).
  - apply String.app_inj.
  - intros H%String.app_inj. by apply (String.app_inj "/") in H.
Qed.

(** ** save_data *)

Lemma save_data_run (to_csv : list Row → string) (pairs_to_csv : list Pair → string)
    bpt bptr dt dt_path out q q_path show w :
  save_data to_csv pairs_to_csv bpt bptr dt dt_path out q q_path show w
  = (Ok tt,
     {| files :=
          <[dt_path := to_csv dt]>
            (<[q_path := to_csv q]>
               (<[path_join out "balanced_pairs_test.tsv" := pairs_to_csv bpt]>
                  (<[path_join out "balanced_pairs_train.tsv" := pairs_to_csv bptr]>
                     (files w))));
        rng := rng w;
        trace := trace w ++
          [MakeDirs out;
           WriteFile (path_join out "balanced_pairs_train.tsv");
           WriteFile (path_join out "balanced_pairs_test.tsv");
           WriteFile q_path; WriteFile dt_path] |}).
Proof.
  unfold save_data, write_file, put_file, log, mbind, M_bind. cbn.
  by rewrite <- !(assoc_L (++)).
Qed.

(** X16. [save_data], given the paths [create_stack_overflow_data] passes
    it, always returns and leaves the four tables written under
    [outputs_path]: each of the four files holds the csv of its table, every
    other file is as before, and the output performed is one [makedirs]
    followed by the four writes in the order train pairs, test pairs,
    questions, test dupes. *)
Theorem save_data_files (to_csv : list Row → string) (pairs_to_csv : list Pair → string)
    bpt bptr dt out q show w :
  let train_path := path_join out "balanced_pairs_train.tsv" in
  let test_path := path_join out "balanced_pairs_test.tsv" in
  let q_path := path_join out "questions.tsv" in
  let dt_path := path_join out "dupes_test.tsv" in
  ∃ w',
    save_data to_csv pairs_to_csv bpt bptr dt dt_path out q q_path show w = (Ok tt, w')
    ∧ files w' !! train_path = Some (pairs_to_csv bptr)
    ∧ files w' !! test_path = Some (pairs_to_csv bpt)
    ∧ files w' !! q_path = Some (to_csv q)
    ∧ files w' !! dt_path = Some (to_csv dt)
    ∧ (∀ p, p ≠ train_path → p ≠ test_path → p ≠ q_path → p ≠ dt_path →
         files w' !! p = files w !! p)
    ∧ rng w' = rng w
    ∧ trace w' = trace w ++
        [MakeDirs out; WriteFile train_path; WriteFile test_path;
         WriteFile q_path; WriteFile dt_path].
Proof.
  intros train_path test_path q_path dt_path.
  eexists. split; [apply save_data_run|]. cbn [files rng trace].
  fold train_path. fold test_path.
  assert (Hne : ∀ b1 b2, String.prefix "/" b1 = false → String.prefix "/" b2 = false →
                         b1 ≠ b2 → path_join out b1 ≠ path_join out b2).
  { intros b1 b2 H1 H2 Hb Heq. by apply Hb, (path_join_inj out). }
  assert (train_path ≠ test_path) by (by apply Hne).
  assert (train_path ≠ q_path) by (by apply Hne).
  assert (train_path ≠ dt_path) by (by apply Hne).
  assert (test_path ≠ q_path) by (by apply Hne).
  assert (test_path ≠ dt_path) by (by apply Hne).
  assert (q_path ≠ dt_path) by (by apply Hne).
  clearbody train_path test_path q_path dt_path.
  split_and!; try done.
  - do 3 (rewrite lookup_insert_ne by (done || by apply not_eq_sym)).
    apply lookup_insert_eq.
  - do 2 (rewrite lookup_insert_ne by (done || by apply not_eq_sym)).
    apply lookup_insert_eq.
  - rewrite lookup_insert_ne by (done || by apply not_eq_sym).
    apply lookup_insert_eq.
  - apply lookup_insert_eq.
  - intros p ? ? ? ?.
    by do 4 (rewrite lookup_insert_ne by (done || by apply not_eq_sym)).
Qed.

(** ** Computations that leave the files alone *)

Lemma M_bind_inv {A B} (m : M A) (k : A → M B) w r w' :
  (m ≫= k) w = (r, w') →
  (∃ a w1, m w = (Ok a, w1) ∧ k a w1 = (r, w'))
  ∨ (∃ e, m w = (Raise e, w') ∧ r = Raise e).
Proof.
  unfold mbind, M_bind. destruct (m w) as [[a|e] w1].
  - left. eauto.
  - intros [= <- <-]. right. eauto.
Qed.

Lemma keeps_files_bind {A B} (m : M A) (k : A → M B) :
  keeps_files m → (∀ a, keeps_files (k a)) → keeps_files (m ≫= k).
Proof.
  intros Hm Hk w r w' [(a & w1 & H1 & H2) | (e & H1 & _)]%M_bind_inv.
  - rewrite (Hk _ _ _ _ H2). by apply Hm in H1.
  - by apply Hm in H1.
Qed.

Lemma raising_keeps_files_bind {A B} (m : M A) (k : A → M B) :
  keeps_files m → (∀ a, raising_keeps_files (k a)) → raising_keeps_files (m ≫= k).
Proof.
  intros Hm Hk w e w' [(a & w1 & H1 & H2) | (e' & H1 & _)]%M_bind_inv.
  - rewrite (Hk _ _ _ _ H2). by apply Hm in H1.
  - by apply Hm in H1.
Qed.

Lemma keeps_files_lift {A} (r : result A) : keeps_files (lift r).
Proof. by intros w r' w' [= _ <-]. Qed.

Lemma keeps_files_ret {A} (a : A) : keeps_files (mret a).
Proof. by intros w r' w' [= _ <-]. Qed.

Lemma keeps_files_log e : keeps_files (log e).
Proof. by intros w r' w' [= _ <-]. Qed.

Lemma keeps_files_draw {A} (f : N → A * N) : keeps_files (draw f).
Proof. intros w r' w'. unfold draw. destruct (f (rng w)). by intros [= _ <-]. Qed.

Lemma keeps_files_isfile p : keeps_files (isfile p).
Proof. by intros w r' w' [= _ <-]. Qed.

Lemma keeps_files_read_file p : keeps_files (read_file p).
Proof.
  apply keeps_files_bind; [apply keeps_files_log|]. intros _ w r w'.
  unfold get_file. destruct (files w !! p); by intros [= _ <-].
Qed.

Lemma keeps_files_pd_read_csv read_csv p : keeps_files (pd_read_csv read_csv p).
Proof.
  apply keeps_files_bind; [apply keeps_files_read_file|].
  intros c. apply keeps_files_lift.
Qed.

Lemma keeps_files_download_datasets read_csv_gz read_csv_gz_answers show :
  keeps_files (download_datasets read_csv_gz read_csv_gz_answers show).
Proof.
  unfold download_datasets.
  repeat first
    [ apply keeps_files_log | apply keeps_files_lift | apply keeps_files_ret
    | apply keeps_files_bind; [|intros ?] ].
  destruct show; [apply keeps_files_lift | apply keeps_files_ret].
Qed.

Lemma keeps_files_split_duplicates round_sample_strat random_merge
    dupes label_column match_ questions show test_size :
  keeps_files (split_duplicates round_sample_strat random_merge
                 dupes label_column match_ questions show test_size).
Proof.
  unfold split_duplicates.
  repeat first
    [ apply keeps_files_draw | apply keeps_files_lift | apply keeps_files_ret
    | apply keeps_files_bind; [|intros ?] ].
Qed.

(** ** download_datasets *)

(** The three URLs, spelled out. *)
Local Ltac spell_urls :=
  cbv zeta;
  change ("https://bostondata.blob.core.windows.net/stackoverflow/" +:+ "orig-q.tsv.gz")%string
    with "https://bostondata.blob.core.windows.net/stackoverflow/orig-q.tsv.gz"%string;
  change ("https://bostondata.blob.core.windows.net/stackoverflow/" +:+ "dup-q.tsv.gz")%string
    with "https://bostondata.blob.core.windows.net/stackoverflow/dup-q.tsv.gz"%string;
  change ("https://bostondata.blob.core.windows.net/stackoverflow/" +:+ "ans.tsv.gz")%string
    with "https://bostondata.blob.core.windows.net/stackoverflow/ans.tsv.gz"%string.

Section Download.
Variable read_csv_gz : string → result (list RawRow).
Variable read_csv_gz_answers : string → result (list RawAnswer).

(** X17. When the three files are fetched, [download_datasets] returns
    them as [(answers, dupes, questions)]; with [show_output] it first
    prints from them, and raises [IndexError] on an empty Questions frame
    and [KeyError] when the first question's [AnswerId] is the [Id] of no
    answer. It fetches the three files in the order questions, dupes,
    answers and touches neither the files nor the random generator. *)
Theorem download_datasets_outcome show w questions dupes answers :
  read_csv_gz "https://bostondata.blob.core.windows.net/stackoverflow/orig-q.tsv.gz"
    = Ok questions →
  read_csv_gz "https://bostondata.blob.core.windows.net/stackoverflow/dup-q.tsv.gz"
    = Ok dupes →
  read_csv_gz_answers "https://bostondata.blob.core.windows.net/stackoverflow/ans.tsv.gz"
    = Ok answers →
  download_datasets read_csv_gz read_csv_gz_answers show w
  = (match show, questions with
     | false, _ => Ok (answers, dupes, questions)
     | true, [] => Raise IndexError
     | true, q :: _ =>
         if bool_decide (raw_AnswerId q ∈ rawans_Id <$> answers)
         then Ok (answers, dupes, questions) else Raise KeyError
     end,
     {| files := files w; rng := rng w;
        trace := trace w ++
          [Fetch "https://bostondata.blob.core.windows.net/stackoverflow/orig-q.tsv.gz";
           Fetch "https://bostondata.blob.core.windows.net/stackoverflow/dup-q.tsv.gz";
           Fetch "https://bostondata.blob.core.windows.net/stackoverflow/ans.tsv.gz"] |}).
Proof.
  intros Hq Hd Ha.
  unfold download_datasets. spell_urls.
  unfold mbind at 1 2 3 4 5 6 7, M_bind, log, lift, mret, M_ret.
  rewrite Hq, Hd, Ha. cbn [files rng trace].
  rewrite <- !(assoc_L (++)). cbn [app].
  destruct show; [|reflexivity].
  destruct questions as [|q qs]; [reflexivity|]. cbn. unfold at_Text0.
  by case_bool_decide.
Qed.


End Download.

Lemma download_datasets_outcome_witness :
  ex_read_csv_gz "https://bostondata.blob.core.windows.net/stackoverflow/orig-q.tsv.gz"
    = Ok ex_questions
  ∧ ex_read_csv_gz "https://bostondata.blob.core.windows.net/stackoverflow/dup-q.tsv.gz"
    = Ok ex_dupes
  ∧ ex_read_csv_gz_answers "https://bostondata.blob.core.windows.net/stackoverflow/ans.tsv.gz"
    = Ok ex_answers
  ∧ download_datasets ex_read_csv_gz ex_read_csv_gz_answers true ex_fresh
    = (Ok (ex_answers, ex_dupes, ex_questions),
       mkWorld ∅ 0
         [Fetch "https://bostondata.blob.core.windows.net/stackoverflow/orig-q.tsv.gz";
          Fetch "https://bostondata.blob.core.windows.net/stackoverflow/dup-q.tsv.gz";
          Fetch "https://bostondata.blob.core.windows.net/stackoverflow/ans.tsv.gz"]).
Proof.
  split_and!; [vm_compute; reflexivity..|].
  exact (download_datasets_outcome ex_read_csv_gz ex_read_csv_gz_answers true ex_fresh
           ex_questions ex_dupes ex_answers eq_refl eq_refl eq_refl).
Defined.


(** ** create_stack_overflow_data: the whole run *)

Lemma first_per_label_rows seen rows labels r :
  r ∈ first_per_label seen rows labels → r ∈ rows.
Proof.
  revert seen labels. induction rows as [|x rows IH]; intros seen [|l labels]; cbn;
    try by intros []%elem_of_nil.
  case_decide.
  - intros H'%IH. by apply list_elem_of_further.
  - intros [->|H']%elem_of_cons; [apply list_elem_of_here|].
    apply list_elem_of_further. by eapply IH.
Qed.

Section Run.
Variable directory : string.
Variable clean_text : str → str.
Variable lower : str → str.
Variable read_csv_gz : string → result (list RawRow).
Variable read_csv_gz_answers : string → result (list RawAnswer).
Variable round_sample_strat : list Row → list value → Q → N → list Row * N.
Variable random_merge : list Row → list Row → Z → N → list Merged * N.
Variable read_csv : string → result (list Row).
Variable to_csv : list Row → string.
Variable pairs_to_csv : list Pair → string.

Let outputs_path : string := directory +:+ "/data_folder".
Let dupes_test_path : string := path_join outputs_path "dupes_test.tsv".
Let questions_path : string := path_join outputs_path "questions.tsv".
Let run : Q → Z → Z → Z → bool → M (list Row * list Row) :=
  create_stack_overflow_data directory clean_text lower read_csv_gz read_csv_gz_answers
    round_sample_strat random_merge read_csv to_csv pairs_to_csv.

(** A run that finds both files reads them and does nothing else. *)
Lemma create_hit_run test_size min_text min_dupes match_ show w cq cd :
  files w !! questions_path = Some cq →
  files w !! dupes_test_path = Some cd →
  run test_size min_text min_dupes match_ show w =
    (questions ← read_csv cq; dupes_test ← read_csv cd; mret (questions, dupes_test),
     {| files := files w; rng := rng w;
        trace := trace w ++ ReadFile questions_path ::
                   match read_csv cq with
                   | Ok _ => [ReadFile dupes_test_path]
                   | Raise _ => []
                   end |}).
Proof.
  intros Hq Hd. subst run. cbv beta. unfold create_stack_overflow_data.
  fold outputs_path. fold dupes_test_path. fold questions_path.
  clearbody questions_path dupes_test_path.
  unfold mbind at 1, M_bind at 1, isfile at 1.
  rewrite (bool_decide_eq_true_2 _ (mk_is_Some _ _ Hd)).
  unfold mbind at 1, M_bind at 1, isfile at 1.
  rewrite (bool_decide_eq_true_2 _ (mk_is_Some _ _ Hq)).
  unfold pd_read_csv, read_file, get_file, log, lift, mbind, M_bind, mret, M_ret.
  cbn. rewrite Hq.
  destruct (read_csv cq) as [q|e]; cbn; [|done].
  rewrite Hd. rewrite <- (assoc_L (++)). cbn.
  destruct (read_csv cd) as [d|e]; cbn; done.
Qed.

(** A run that misses one of the files is the pipeline. *)
Lemma create_miss_run test_size min_text min_dupes match_ show w :
  files w !! questions_path = None ∨ files w !! dupes_test_path = None →
  run test_size min_text min_dupes match_ show w =
    ('(answers, dupes, questions) ← download_datasets read_csv_gz read_csv_gz_answers show;
     '(dupes, label_column, questions) ←
       lift (clean_data clean_text lower answers dupes min_dupes min_text questions show);
     '(balanced_pairs_test, balanced_pairs_train, dupes_test) ←
       split_duplicates round_sample_strat random_merge
         dupes label_column match_ questions show test_size;
     save_data to_csv pairs_to_csv balanced_pairs_test balanced_pairs_train dupes_test
       dupes_test_path outputs_path questions questions_path show ;;
     mret (questions, dupes_test)) w.
Proof.
  intros Hmiss. subst run. cbv beta. unfold create_stack_overflow_data.
  fold outputs_path. fold dupes_test_path. fold questions_path.
  unfold mbind at 1, M_bind at 1, isfile at 1.
  unfold mbind at 1, M_bind at 1.
  case_bool_decide as H1.
  - unfold isfile. case_bool_decide as H2; [|done].
    destruct H1 as [? H1], H2 as [? H2], Hmiss as [Hm|Hm]; congruence.
  - done.
Qed.

Lemma create_miss_Ok test_size min_text min_dupes match_ show w questions dupes_test w' :
  files w !! questions_path = None ∨ files w !! dupes_test_path = None →
  run test_size min_text min_dupes match_ show w = (Ok (questions, dupes_test), w') →
  ∃ answers dupes0 questions0 w1 dupes label_column bpt bptr w2,
    download_datasets read_csv_gz read_csv_gz_answers show w
      = (Ok (answers, dupes0, questions0), w1)
    ∧ clean_data clean_text lower answers dupes0 min_dupes min_text questions0 show
      = Ok (dupes, label_column, questions)
    ∧ split_duplicates round_sample_strat random_merge
        dupes label_column match_ questions show test_size w1
      = (Ok (bpt, bptr, dupes_test), w2)
    ∧ save_data to_csv pairs_to_csv bpt bptr dupes_test dupes_test_path
        outputs_path questions questions_path show w2
      = (Ok tt, w').
Proof.
  intros Hmiss Hrun. rewrite create_miss_run in Hrun by done.
  apply M_bind_Ok in Hrun as ([[answers dupes0] questions0] & w1 & Hdl & Hrun).
  apply M_bind_Ok in Hrun as ([[dupes lbl] q] & w1' & [Hcl ->]%lift_Ok & Hrun).
  apply M_bind_Ok in Hrun as ([[bpt bptr] dt] & w2 & Hsp & Hrun).
  apply M_bind_Ok in Hrun as ([] & w3 & Hsv & Hrun).
  injection Hrun as <- <- <-.
  exists answers, dupes0, questions0, w1, dupes, lbl, bpt, bptr, w2. done.
Qed.

(** X19. A completed run that missed the cache leaves [questions.tsv] and
    [dupes_test.tsv] holding the csv of the two tables it returns, so that
    any later run on that world, whatever its parameters, is served from
    the cache: it returns what [read_csv] makes of those two files and
    writes nothing. *)
Theorem create_miss_then_hit
    test_size min_text min_dupes match_ show w questions dupes_test w'
    test_size' min_text' min_dupes' match_' show' :
  files w !! questions_path = None ∨ files w !! dupes_test_path = None →
  run test_size min_text min_dupes match_ show w = (Ok (questions, dupes_test), w') →
  files w' !! questions_path = Some (to_csv questions)
  ∧ files w' !! dupes_test_path = Some (to_csv dupes_test)
  ∧ ∃ w'',
      run test_size' min_text' min_dupes' match_' show' w'
      = (q ← read_csv (to_csv questions); d ← read_csv (to_csv dupes_test); mret (q, d),
         w'')
      ∧ files w'' = files w'.
Proof.
  intros Hmiss Hrun.
  apply create_miss_Ok in Hrun
    as (answers & dupes0 & questions0 & w1 & dupes & lbl & bpt & bptr & w2
        & _ & _ & _ & Hsv); [|done].
  rewrite save_data_run in Hsv. injection Hsv as <-. cbn [files].
  assert (Hne : questions_path ≠ dupes_test_path).
  { intros Heq. by apply (path_join_inj outputs_path) in Heq. }
  assert (Hq : ∀ m : gmap string string,
            <[dupes_test_path := to_csv dupes_test]>
              (<[questions_path := to_csv questions]> m) !! questions_path
            = Some (to_csv questions)).
  { intros m. rewrite lookup_insert_ne by (by apply not_eq_sym).
    apply lookup_insert_eq. }
  split_and!; [apply Hq | apply lookup_insert_eq |].
  eexists. split.
  - rewrite (create_hit_run _ _ _ _ _ _ (to_csv questions) (to_csv dupes_test));
      [reflexivity | apply Hq | apply lookup_insert_eq].
  - reflexivity.
Qed.

(** X20. A run that raises has written no file: the files are written by
    [save_data] only, after fetching, cleaning and splitting have all
    returned. *)
Theorem create_failure_writes_nothing test_size min_text min_dupes match_ show w e w' :
  run test_size min_text min_dupes match_ show w = (Raise e, w') →
  files w' = files w.
Proof.
  destruct (files w !! questions_path) as [cq|] eqn:Hq;
    [destruct (files w !! dupes_test_path) as [cd|] eqn:Hd|].
  - rewrite (create_hit_run _ _ _ _ _ _ cq cd) by done. by intros [= _ <-].
  - rewrite create_miss_run by auto. revert w e w' Hq Hd.
    enough (Hk : raising_keeps_files
      ('(answers, dupes, questions) ← download_datasets read_csv_gz read_csv_gz_answers show;
       '(dupes, label_column, questions) ←
         lift (clean_data clean_text lower answers dupes min_dupes min_text questions show);
       '(balanced_pairs_test, balanced_pairs_train, dupes_test) ←
         split_duplicates round_sample_strat random_merge
           dupes label_column match_ questions show test_size;
       save_data to_csv pairs_to_csv balanced_pairs_test balanced_pairs_train dupes_test
         dupes_test_path outputs_path questions questions_path show ;;
       mret (questions, dupes_test))) by (intros w e w' _ _; apply Hk).
    apply raising_keeps_files_bind; [apply keeps_files_download_datasets|].
    intros [[answers dupes0] questions0].
    apply raising_keeps_files_bind; [apply keeps_files_lift|].
    intros [[dupes lbl] q].
    apply raising_keeps_files_bind; [apply keeps_files_split_duplicates|].
    intros [[bpt bptr] dt] w0 e0 w0'.
    unfold mbind, M_bind. rewrite save_data_run. discriminate.
  - rewrite create_miss_run by auto. revert w e w' Hq.
    enough (Hk : raising_keeps_files
      ('(answers, dupes, questions) ← download_datasets read_csv_gz read_csv_gz_answers show;
       '(dupes, label_column, questions) ←
         lift (clean_data clean_text lower answers dupes min_dupes min_text questions show);
       '(balanced_pairs_test, balanced_pairs_train, dupes_test) ←
         split_duplicates round_sample_strat random_merge
           dupes label_column match_ questions show test_size;
       save_data to_csv pairs_to_csv balanced_pairs_test balanced_pairs_train dupes_test
         dupes_test_path outputs_path questions questions_path show ;;
       mret (questions, dupes_test))) by (intros w e w' _; apply Hk).
    apply raising_keeps_files_bind; [apply keeps_files_download_datasets|].
    intros [[answers dupes0] questions0].
    apply raising_keeps_files_bind; [apply keeps_files_lift|].
    intros [[dupes lbl] q].
    apply raising_keeps_files_bind; [apply keeps_files_split_duplicates|].
    intros [[bpt bptr] dt] w0 e0 w0'.
    unfold mbind, M_bind. rewrite save_data_run. discriminate.
Qed.

(** X21. When the sampler only returns rows of the frame it is given, the
    two tables returned by a completed run that missed the cache agree:
    they show the same set of [AnswerId]s, and each of their rows has a
    cleaned [Text] of at least [min_text] characters (code points). *)
Theorem create_returns_consistent_pair
    test_size min_text min_dupes match_ show w questions dupes_test w' :
  (∀ df labels frac g r, r ∈ (round_sample_strat df labels frac g).1 → r ∈ df) →
  files w !! questions_path = None ∨ files w !! dupes_test_path = None →
  run test_size min_text min_dupes match_ show w = (Ok (questions, dupes_test), w') →
  (∀ a, a ∈ AnswerId <$> questions ↔ a ∈ AnswerId <$> dupes_test)
  ∧ (∀ r, r ∈ questions → min_text ≤ Z.of_nat (length (Text r)))
  ∧ (∀ r, r ∈ dupes_test → min_text ≤ Z.of_nat (length (Text r))).
Proof.
  intros Hsampler Hmiss Hrun.
  apply create_miss_Ok in Hrun
    as (answers & dupes0 & questions0 & w1 & dupes & lbl & bpt & bptr & w2
        & _ & Hcl & Hsp & _); [|done].
  apply clean_data_Ok in Hcl as (a0 & d & q & _ & _ & Hr).
  pose proof Hr as (Hq' & Hd' & -> & Hqd & Hdq)%clean_data_restrict_Ok.
  apply split_duplicates_Ok in Hsp
    as (labels & tl & g1 & mtrain & g2 & mtest & g3 & Hl & Hs & Htl & Hlen & _).
  cbn in Hl, Htl. injection Hl as <-. injection Htl as <-.
  assert (Hsub : ∀ r, r ∈ dupes_test → r ∈ dupes).
  { intros r Hr'. eapply Hsampler. by rewrite Hs. }
  assert (Hlen_q : ∀ r, r ∈ questions → min_text ≤ Z.of_nat (length (Text r))).
  { intros r. rewrite Hq'.
    by intros [[[_ Hlen']%elem_of_loc_len_ge _]%elem_of_loc_isin _]%elem_of_loc_isin. }
  assert (Hlen_d : ∀ r, r ∈ dupes → min_text ≤ Z.of_nat (length (Text r))).
  { intros r. rewrite Hd'.
    by intros [[[_ Hlen']%elem_of_loc_len_ge _]%elem_of_loc_isin _]%elem_of_loc_isin. }
  split_and!; [|exact Hlen_q|auto].
  intros a. split.
  - intros Ha. apply (proj1 (all_isin _ _) Hqd) in Ha.
    assert (Hc : VInt a ∈ (λ r, VInt (AnswerId r)) <$> dupes_test).
    { apply (covers_column _ dupes_test dupes Hsub Hlen).
      apply list_elem_of_fmap in Ha as (r & -> & Hr'). apply list_elem_of_fmap. eauto. }
    apply list_elem_of_fmap in Hc as (r & [= ->] & Hr').
    apply list_elem_of_fmap. eauto.
  - intros (r & -> & Hr')%list_elem_of_fmap.
    apply (proj1 (all_isin _ _) Hdq). apply list_elem_of_fmap. eauto.
Qed.

End Run.

Lemma create_miss_then_hit_witness :
  (files ex_fresh !! "/srv/data_folder/questions.tsv"%string = None
   ∨ files ex_fresh !! "/srv/data_folder/dupes_test.tsv"%string = None)
  ∧ ex_create 0.21%Q 8 1 20 true ex_fresh
    = (Ok ([ex_q1; ex_q2], [ex_d5; ex_d7]), (ex_create 0.21%Q 8 1 20 true ex_fresh).2)
  ∧ files (ex_create 0.21%Q 8 1 20 true ex_fresh).2 !! "/srv/data_folder/questions.tsv"%string
    = Some (ex_to_csv [ex_q1; ex_q2])
  ∧ files (ex_create 0.21%Q 8 1 20 true ex_fresh).2 !! "/srv/data_folder/dupes_test.tsv"%string
    = Some (ex_to_csv [ex_d5; ex_d7])
  ∧ ∃ w'',
      ex_create 0.5%Q 0 0 5 false (ex_create 0.21%Q 8 1 20 true ex_fresh).2
      = (q ← ex_read_csv (ex_to_csv [ex_q1; ex_q2]);
         d ← ex_read_csv (ex_to_csv [ex_d5; ex_d7]); mret (q, d), w'')
      ∧ files w'' = files (ex_create 0.21%Q 8 1 20 true ex_fresh).2.
Proof.
  assert (Hmiss : files ex_fresh !! "/srv/data_folder/questions.tsv"%string = None
                  ∨ files ex_fresh !! "/srv/data_folder/dupes_test.tsv"%string = None)
    by (left; vm_compute; reflexivity).
  assert (Hrun : ex_create 0.21%Q 8 1 20 true ex_fresh
                 = (Ok ([ex_q1; ex_q2], [ex_d5; ex_d7]),
                    (ex_create 0.21%Q 8 1 20 true ex_fresh).2))
    by (vm_compute; reflexivity).
  split; [exact Hmiss|]. split; [exact Hrun|].
  exact (create_miss_then_hit "/srv" strip_tags ex_lower ex_read_csv_gz ex_read_csv_gz_answers
           ex_round_sample_strat ex_random_merge ex_read_csv ex_to_csv ex_pairs_to_csv
           0.21%Q 8 1 20 true ex_fresh [ex_q1; ex_q2] [ex_d5; ex_d7] _
           0.5%Q 0 0 5 false Hmiss Hrun).
Defined.

Lemma create_failure_writes_nothing_witness :
  create_stack_overflow_data "/srv" strip_tags ex_lower ex_read_csv_gz (λ _, Raise OSError)
    ex_round_sample_strat ex_random_merge ex_read_csv ex_to_csv ex_pairs_to_csv
    0.21%Q 8 1 20 true ex_fresh
  = (Raise OSError,
     mkWorld ∅ 0
       [Fetch "https://bostondata.blob.core.windows.net/stackoverflow/orig-q.tsv.gz";
        Fetch "https://bostondata.blob.core.windows.net/stackoverflow/dup-q.tsv.gz";
        Fetch "https://bostondata.blob.core.windows.net/stackoverflow/ans.tsv.gz"])
  ∧ files (mkWorld ∅ 0
       [Fetch "https://bostondata.blob.core.windows.net/stackoverflow/orig-q.tsv.gz";
        Fetch "https://bostondata.blob.core.windows.net/stackoverflow/dup-q.tsv.gz";
        Fetch "https://bostondata.blob.core.windows.net/stackoverflow/ans.tsv.gz"])
    = files ex_fresh.
Proof.
  assert (Hrun : create_stack_overflow_data "/srv" strip_tags ex_lower ex_read_csv_gz
                   (λ _, Raise OSError) ex_round_sample_strat ex_random_merge
                   ex_read_csv ex_to_csv ex_pairs_to_csv 0.21%Q 8 1 20 true ex_fresh
                 = (Raise OSError,
                    mkWorld ∅ 0
                      [Fetch "https://bostondata.blob.core.windows.net/stackoverflow/orig-q.tsv.gz";
                       Fetch "https://bostondata.blob.core.windows.net/stackoverflow/dup-q.tsv.gz";
                       Fetch "https://bostondata.blob.core.windows.net/stackoverflow/ans.tsv.gz"]))
    by (vm_compute; reflexivity).
  split; [exact Hrun|].
  exact (create_failure_writes_nothing _ _ _ _ _ _ _ _ _ _ _ _ _ _ _ _ _ _ Hrun).
Defined.

Lemma create_returns_consistent_pair_witness :
  (∀ df labels frac g r, r ∈ (ex_round_sample_strat df labels frac g).1 → r ∈ df)
  ∧ (ex_create_accented 0.21%Q 5 1 20 true ex_fresh).1
    = Ok ([ex_q1; ex_q2; ex_q3], [ex_d10; ex_d7; ex_d8])
  ∧ ex_create_accented 0.21%Q 6 1 20 true ex_fresh
    = (Ok ([ex_q1; ex_q2; ex_q3], [ex_d5; ex_d7; ex_d8]),
       (ex_create_accented 0.21%Q 6 1 20 true ex_fresh).2)
  ∧ (∀ a, a ∈ AnswerId <$> [ex_q1; ex_q2; ex_q3] ↔ a ∈ AnswerId <$> [ex_d5; ex_d7; ex_d8])
  ∧ (∀ r, r ∈ [ex_q1; ex_q2; ex_q3] → 6 ≤ Z.of_nat (length (Text r)))
  ∧ (∀ r, r ∈ [ex_d5; ex_d7; ex_d8] → 6 ≤ Z.of_nat (length (Text r))).
Proof.
  assert (Hs : ∀ df labels frac g r,
            r ∈ (ex_round_sample_strat df labels frac g).1 → r ∈ df).
  { intros df labels frac g r. apply first_per_label_rows. }
  assert (Hrun : ex_create_accented 0.21%Q 6 1 20 true ex_fresh
                 = (Ok ([ex_q1; ex_q2; ex_q3], [ex_d5; ex_d7; ex_d8]),
                    (ex_create_accented 0.21%Q 6 1 20 true ex_fresh).2))
    by (vm_compute; reflexivity).
  split; [exact Hs|]. split; [vm_compute; reflexivity|]. split; [exact Hrun|].
  refine (create_returns_consistent_pair "/srv" strip_tags ex_lower ex_read_csv_gz_accented
            ex_read_csv_gz_answers ex_round_sample_strat ex_random_merge ex_read_csv
            ex_to_csv ex_pairs_to_csv 0.21%Q 6 1 20 true ex_fresh
            [ex_q1; ex_q2; ex_q3] [ex_d5; ex_d7; ex_d8] _ Hs _ Hrun).
  left. vm_compute. reflexivity.
Defined.

(** ** clean_data: thresholds and [show_output] *)

Lemma filter_sublist_mono {A} (P1 P2 : A → Prop)
    `{!∀ x, Decision (P1 x)} `{!∀ x, Decision (P2 x)} (l1 l2 : list A) :
  l1 `sublist_of` l2 → (∀ x, x ∈ l1 → P1 x → P2 x) →
  filter P1 l1 `sublist_of` filter P2 l2.
Proof.
  induction 1 as [|x l1 l2 Hsub IH|x l1 l2 Hsub IH]; intros Himp.
  - done.
  - assert (IH' : filter P1 l1 `sublist_of` filter P2 l2).
    { apply IH. intros y Hy. apply Himp. by apply list_elem_of_further. }
    rewrite !filter_cons. destruct (decide (P1 x)) as [H1|H1].
    + rewrite decide_True by (apply Himp; [apply list_elem_of_here|done]).
      by apply sublist_skip.
    + destruct (decide (P2 x)); [by apply sublist_cons|done].
  - rewrite (filter_cons P2). destruct (decide (P2 x)); [apply sublist_cons|]; by apply IH.
Qed.

Lemma count_of_sublist k (s1 s2 : list Z) :
  s1 `sublist_of` s2 → count_of k s1 ≤ count_of k s2.
Proof.
  intros Hsub. unfold count_of. apply inj_le, sublist_length.
  by apply filter_sublist_mono.
Qed.

(** The selections of lines 113-123 let more rows through when the
    frames they start from are larger and the thresholds lower. *)
Lemma restrict_mono (d1 q1 d2 q2 : list Row) min_dupes1 min_text1 min_dupes2 min_text2
    show1 show2 d1' l1 q1' d2' l2 q2' :
  d2 `sublist_of` d1 → q2 `sublist_of` q1 →
  min_dupes1 ≤ min_dupes2 → min_text1 ≤ min_text2 →
  clean_data_restrict d1 q1 min_dupes1 min_text1 show1 = Ok (d1', l1, q1') →
  clean_data_restrict d2 q2 min_dupes2 min_text2 show2 = Ok (d2', l2, q2') →
  q2' `sublist_of` q1' ∧ d2' `sublist_of` d1'.
Proof.
  intros Hd Hq Hmd Hmt
    (-> & -> & _)%clean_data_restrict_Ok (-> & -> & _)%clean_data_restrict_Ok.
  set (Q1 := loc q1 (series_ge (str_len (Text <$> q1)) min_text1)).
  set (D1 := loc d1 (series_ge (str_len (Text <$> d1)) min_text1)).
  set (Q1' := loc q2 (series_ge (str_len (Text <$> q2)) min_text2)).
  set (D1' := loc d2 (series_ge (str_len (Text <$> d2)) min_text2)).
  assert (HQ1 : Q1' `sublist_of` Q1).
  { subst Q1 Q1'. rewrite !len_ge_fmap, !loc_fmap.
    apply filter_sublist_mono; [done|]. intros r _ Hr%bool_decide_unpack.
    apply bool_decide_pack. lia. }
  assert (HD1 : D1' `sublist_of` D1).
  { subst D1 D1'. rewrite !len_ge_fmap, !loc_fmap.
    apply filter_sublist_mono; [done|]. intros r _ Hr%bool_decide_unpack.
    apply bool_decide_pack. lia. }
  clearbody Q1 D1 Q1' D1'.
  assert (Hisin : ∀ (A B A' B' : list Row),
            A' `sublist_of` A → B' `sublist_of` B →
            loc A' (isin (AnswerId <$> A') (AnswerId <$> B'))
              `sublist_of` loc A (isin (AnswerId <$> A) (AnswerId <$> B))).
  { intros A B A' B' HA HB. rewrite !isin_fmap, !loc_fmap.
    apply filter_sublist_mono; [done|]. intros r _ Hr%bool_decide_unpack.
    apply bool_decide_pack. eapply elem_of_sublist; [exact Hr|].
    by apply fmap_sublist. }
  set (Q2 := loc Q1 (isin (AnswerId <$> Q1) (AnswerId <$> D1))).
  set (Q2' := loc Q1' (isin (AnswerId <$> Q1') (AnswerId <$> D1'))).
  assert (HQ2 : Q2' `sublist_of` Q2) by (by apply Hisin).
  set (D2 := loc D1 (isin (AnswerId <$> D1) (AnswerId <$> Q2))).
  set (D2' := loc D1' (isin (AnswerId <$> D1') (AnswerId <$> Q2'))).
  assert (HD2 : D2' `sublist_of` D2) by (by apply Hisin).
  clearbody Q2 Q2' D2 D2'.
  assert (Hmin : ∀ k,
            k ∈ index_where_ge (groupby_count (AnswerId <$> D2')) min_dupes2 →
            k ∈ index_where_ge (groupby_count (AnswerId <$> D2)) min_dupes1).
  { intros k [Hk Hc]%elem_of_index_where_ge. apply elem_of_index_where_ge. split.
    - eapply elem_of_sublist; [exact Hk|]. by apply fmap_sublist.
    - pose proof (count_of_sublist k (AnswerId <$> D2') (AnswerId <$> D2)
                    (fmap_sublist _ _ _ HD2)). lia. }
  split; rewrite !isin_fmap, !loc_fmap;
    (apply filter_sublist_mono; [done|]);
    intros r _ Hr%bool_decide_unpack; apply bool_decide_pack; by apply Hmin.
Qed.

Section CleanDataParameters.
Variable clean_text : str → str.
Variable lower : str → str.

(** X9. Raising [min_text] or [min_dupes] only drops rows: the frames
    returned for larger thresholds are sub-frames, in the same order, of
    those returned for smaller ones. *)
Theorem clean_data_thresholds_monotone
    answers dupes questions show
    min_dupes1 min_text1 d1 l1 q1 min_dupes2 min_text2 d2 l2 q2 :
  min_dupes1 ≤ min_dupes2 → min_text1 ≤ min_text2 →
  clean_data clean_text lower answers dupes min_dupes1 min_text1 questions show
    = Ok (d1, l1, q1) →
  clean_data clean_text lower answers dupes min_dupes2 min_text2 questions show
    = Ok (d2, l2, q2) →
  q2 `sublist_of` q1 ∧ d2 `sublist_of` d1.
Proof.
  intros Hmd Hmt (a & d & q & Hc & _ & Hr1)%clean_data_Ok
    (a' & d0 & q0 & Hc' & _ & Hr2)%clean_data_Ok.
  rewrite Hc in Hc'. injection Hc' as <- <- <-.
  by apply (restrict_mono d q d q min_dupes1 min_text1 min_dupes2 min_text2
              show show d1 l1 q1 d2 l2 q2).
Qed.

Lemma clean_data_show_output_quiet
    answers dupes min_dupes min_text questions res :
  clean_data clean_text lower answers dupes min_dupes min_text questions true = Ok res →
  clean_data clean_text lower answers dupes min_dupes min_text questions false = Ok res.
Proof.
  destruct res as [[d' lbl] q']. intros (a & d & q & Hc & Hv & Hr)%clean_data_Ok.
  unfold clean_data.
  destruct (clean_data_closure_cases clean_text lower answers dupes questions false)
    as [(a0 & d0 & q0 & Hc0) | ([=] & _)].
  pose proof Hc as (Hq & Ha & Hd)%clean_data_closure_Ok.
  pose proof Hc0 as (Hq0 & Ha0 & Hd0)%clean_data_closure_Ok.
  assert (q0 = q) as -> by (by rewrite Hq, Hq0).
  assert (a0 = a) as -> by (by rewrite Ha, Ha0).
  assert (d0 = d) as -> by (by rewrite Hd, Hd0).
  rewrite Hc0. cbn -[clean_data_restrict verify_data_integrity].
  rewrite Hv. cbn -[clean_data_restrict].
  destruct (clean_data_restrict_cases d q min_dupes min_text false)
    as [(d0' & q0' & Hr0) | ([=] & _)].
  pose proof Hr as (Hq' & Hd' & Hl & _)%clean_data_restrict_Ok.
  pose proof Hr0 as (Hq0' & Hd0' & _)%clean_data_restrict_Ok.
  rewrite Hr0, Hq', Hd', Hl, Hq0', Hd0'. done.
Qed.

(** X22. [show_output] has no effect on the data: when [clean_data]
    returns with the prints, it returns the same frames without them. *)
Theorem clean_data_show_output_irrelevant
    answers dupes min_dupes min_text questions res :
  clean_data clean_text lower answers dupes min_dupes min_text questions true = Ok res →
  clean_data clean_text lower answers dupes min_dupes min_text questions false = Ok res.
Proof. apply clean_data_show_output_quiet. Qed.

End CleanDataParameters.

Lemma clean_data_thresholds_monotone_witness :
  1 ≤ 2 ∧ 0 ≤ 8
  ∧ clean_data strip_tags ex_lower ex_answers ex_dupes 1 0 ex_questions true
    = Ok ([ex_d5; ex_d6; ex_d7; ex_d8], "AnswerId"%string, [ex_q1; ex_q2; ex_q3])
  ∧ clean_data strip_tags ex_lower ex_answers ex_dupes 2 8 ex_questions true
    = Ok ([ex_d5; ex_d6], "AnswerId"%string, [ex_q1])
  ∧ [ex_q1] `sublist_of` [ex_q1; ex_q2; ex_q3]
  ∧ [ex_d5; ex_d6] `sublist_of` [ex_d5; ex_d6; ex_d7; ex_d8].
Proof.
  split; [lia|]. split; [lia|].
  split; [vm_compute; reflexivity|]. split; [vm_compute; reflexivity|].
  apply (clean_data_thresholds_monotone strip_tags ex_lower ex_answers ex_dupes ex_questions true
           1 0 [ex_d5; ex_d6; ex_d7; ex_d8] "AnswerId" [ex_q1; ex_q2; ex_q3]
           2 8 [ex_d5; ex_d6] "AnswerId" [ex_q1]).
  - lia.
  - lia.
  - vm_compute. reflexivity.
  - vm_compute. reflexivity.
Defined.

Lemma clean_data_show_output_irrelevant_witness :
  clean_data strip_tags ex_lower ex_answers ex_dupes 1 8 ex_questions true
    = Ok ([ex_d5; ex_d6; ex_d7], "AnswerId"%string, [ex_q1; ex_q2])
  ∧ clean_data strip_tags ex_lower ex_answers ex_dupes 1 8 ex_questions false
    = Ok ([ex_d5; ex_d6; ex_d7], "AnswerId"%string, [ex_q1; ex_q2]).
Proof.
  split; [vm_compute; reflexivity|].
  apply (clean_data_show_output_irrelevant strip_tags ex_lower ex_answers ex_dupes 1 8 ex_questions).
  vm_compute. reflexivity.
Defined.

(** ** The whole run and [show_output] *)

Lemma download_datasets_quiet read_csv_gz read_csv_gz_answers w x w1 :
  download_datasets read_csv_gz read_csv_gz_answers true w = (Ok x, w1) →
  download_datasets read_csv_gz read_csv_gz_answers false w = (Ok x, w1).
Proof.
  unfold download_datasets. spell_urls.
  unfold mbind, M_bind, log, lift, mret, M_ret. cbn [files rng trace].
  destruct (read_csv_gz _) as [questions|e]; [|done]. cbn [files rng trace].
  destruct (read_csv_gz _) as [dupes|e]; [|done]. cbn [files rng trace].
  destruct (read_csv_gz_answers _) as [answers|e]; [|done]. cbn [files rng trace].
  cbn beta iota.
  match goal with
  | |- match ?m with _ => _ end = _ → _ => destruct m as [[]|e]; [done|discriminate]
  end.
Qed.

Section RunQuiet.
Variable directory : string.
Variable clean_text : str → str.
Variable lower : str → str.
Variable read_csv_gz : string → result (list RawRow).
Variable read_csv_gz_answers : string → result (list RawAnswer).
Variable round_sample_strat : list Row → list value → Q → N → list Row * N.
Variable random_merge : list Row → list Row → Z → N → list Merged * N.
Variable read_csv : string → result (list Row).
Variable to_csv : list Row → string.
Variable pairs_to_csv : list Pair → string.

(** X23. [show_output] has no effect on the result of the pipeline: a run
    that returns with the prints returns the same two tables, and leaves
    the same files, random generator and record of input and output,
    without them. *)
Theorem create_show_output_irrelevant test_size min_text min_dupes match_ w res w' :
  create_stack_overflow_data directory clean_text lower read_csv_gz read_csv_gz_answers
    round_sample_strat random_merge read_csv to_csv pairs_to_csv
    test_size min_text min_dupes match_ true w = (Ok res, w') →
  create_stack_overflow_data directory clean_text lower read_csv_gz read_csv_gz_answers
    round_sample_strat random_merge read_csv to_csv pairs_to_csv
    test_size min_text min_dupes match_ false w = (Ok res, w').
Proof.
  set (outputs_path := directory +:+ "/data_folder").
  set (dupes_test_path := path_join outputs_path "dupes_test.tsv").
  set (questions_path := path_join outputs_path "questions.tsv").
  destruct (files w !! questions_path) as [cq|] eqn:Hq;
    [destruct (files w !! dupes_test_path) as [cd|] eqn:Hd|].
  - rewrite !(create_hit_run _ _ _ _ _ _ _ _ _ _ _ _ _ _ _ _ cq cd) by done. done.
  - rewrite !create_miss_run by auto.
    intros ([[answers dupes0] questions0] & w1 & Hdl%download_datasets_quiet & H)%M_bind_Ok.
    apply M_bind_Ok in H
      as ([[dupes lbl] q] & w1' & [Hcl%clean_data_show_output_quiet ->]%lift_Ok & H).
    unfold mbind at 1, M_bind at 1. rewrite Hdl.
    unfold mbind at 1, M_bind at 1, lift at 1. rewrite Hcl. exact H.
  - rewrite !create_miss_run by auto.
    intros ([[answers dupes0] questions0] & w1 & Hdl%download_datasets_quiet & H)%M_bind_Ok.
    apply M_bind_Ok in H
      as ([[dupes lbl] q] & w1' & [Hcl%clean_data_show_output_quiet ->]%lift_Ok & H).
    unfold mbind at 1, M_bind at 1. rewrite Hdl.
    unfold mbind at 1, M_bind at 1, lift at 1. rewrite Hcl. exact H.
Qed.

End RunQuiet.

Lemma create_show_output_irrelevant_witness :
  ex_create 0.21%Q 8 1 20 true ex_fresh
    = (Ok ([ex_q1; ex_q2], [ex_d5; ex_d7]), (ex_create 0.21%Q 8 1 20 true ex_fresh).2)
  ∧ ex_create 0.21%Q 8 1 20 false ex_fresh
    = (Ok ([ex_q1; ex_q2], [ex_d5; ex_d7]), (ex_create 0.21%Q 8 1 20 true ex_fresh).2).
Proof.
  assert (Hrun : ex_create 0.21%Q 8 1 20 true ex_fresh
                 = (Ok ([ex_q1; ex_q2], [ex_d5; ex_d7]),
                    (ex_create 0.21%Q 8 1 20 true ex_fresh).2))
    by (vm_compute; reflexivity).
  split; [exact Hrun|].
  exact (create_show_output_irrelevant "/srv" strip_tags ex_lower ex_read_csv_gz
           ex_read_csv_gz_answers ex_round_sample_strat ex_random_merge ex_read_csv
           ex_to_csv ex_pairs_to_csv 0.21%Q 8 1 20 ex_fresh _ _ Hrun).
Defined.
